(** * baremetalvmm: the Firecracker client, the image manager and the mount
    image builder, embedded as Rocq functions over an explicit model of the host.

    Sources: [internal/firecracker] (StartVM, IsRunning), [internal/image]
    (CreateVMRootfs) and [internal/mount] (CreateMountImage, SyncMountImage,
    calculateDirSize, ParseMountSpec, splitMountSpec).

    Go strings are byte strings; they are modelled by [string], whose
    characters are 8-bit [ascii] values.  Go's [int] is the 64-bit integer
    of the amd64 target.  Line numbers are those of the file that holds
    the function. *)

From Stdlib Require Import ZArith Lia String Ascii List Bool.
From Stdlib Require Import Floats.SpecFloat.
From stdpp Require Import base option list gmap strings pretty.

Local Open Scope Z_scope.

(** ** The host the code runs on *)

Module Host.

(** What [os.Lstat] and [filepath.Walk] see below a path.  A [NFile] is
    any entry that is not a directory (regular file, symlink, device) with
    the size [Lstat] reports; a directory lists its entries in the lexical
    order [Walk] visits them and may be unreadable; [NBroken] is an entry
    whose [stat] fails with an error other than "does not exist". *)
#[warnings="-register-all"]
Inductive node : Type :=
  | NFile (size : Z)
  | NDir (readable : bool) (entries : list node)
  | NBroken.

Inductive stat_result : Type :=
  | StatOk (isDir : bool) (size : Z)
  | StatNotExist
  | StatErr.

(** [os.Stat] on the paths the code names.  The file system maps each
    such path to what is there; the paths are not symbolic links, so
    [Stat] and [Lstat] agree on them. *)
Definition os_Stat (fs : gmap string node) (path : string) : stat_result :=
  match fs !! path with
  | None => StatNotExist
  | Some NBroken => StatErr
  | Some (NFile sz) => StatOk false sz
  | Some (NDir _ _) => StatOk true 4096
  end.

(** [_, err := os.Stat(p); err == nil] *)
Definition stat_ok (fs : gmap string node) (path : string) : bool :=
  match os_Stat fs path with StatOk _ _ => true | _ => false end.

(** [os.Remove]: unlinks a file or an empty directory; the callers in this
    repository ignore the error of the other cases, which change nothing. *)
Definition os_Remove (fs : gmap string node) (path : string) : gmap string node :=
  match fs !! path with
  | Some (NDir _ (_ :: _)) => fs
  | Some _ => delete path fs
  | None => fs
  end.

(** Go [error] values the code compares or wraps. *)
Inductive goerror : Type :=
  | Errno (code : Z)
  | ErrProcessDone
  | ErrOther (msg : string).

Definition EPERM : goerror := Errno 1.
Definition ESRCH : goerror := Errno 3.

Definition goerror_eqb (a b : goerror) : bool :=
  match a, b with
  | Errno x, Errno y => x =? y
  | ErrProcessDone, ErrProcessDone => true
  | ErrOther x, ErrOther y => bool_decide (x = y)
  | _, _ => false
  end.

(** The process table as the liveness probe sees it: [os.FindProcess] and
    [Process.Signal(0)] ([None] is a nil error). *)
Record procs : Type := {
  findProcess : Z -> option goerror;
  signal0 : Z -> option goerror
}.

End Host.

(** ** internal/firecracker *)

Module Firecracker.
Import Host.

Record MountDrive : Type := {
  md_ImagePath : string;
  md_Tag : string;
  md_ReadOnly : bool
}.

Record VMConfig : Type := {
  SocketPath : string;
  KernelPath : string;
  RootfsPath : string;
  CPUs : Z;
  MemoryMB : Z;
  TapDevice : string;
  MacAddress : string;
  KernelArgs : string;
  LogPath : string;
  IPAddress : string;
  Gateway : string;
  MountDrives : list MountDrive
}.

(** [models.Drive] of the SDK; its pointer fields are always set here. *)
Record Drive : Type := {
  DriveID : string;
  PathOnHost : string;
  IsRootDevice : bool;
  IsReadOnly : bool
}.

(** [sdk.Config], the fields StartVM fills. *)
Record Config : Type := {
  cfg_SocketPath : string;
  cfg_KernelImagePath : string;
  cfg_KernelArgs : string;
  cfg_Drives : list Drive;
  cfg_VcpuCount : Z;
  cfg_MemSizeMib : Z;
  cfg_NetworkInterfaces : list (string * string)
}.

Inductive start_error : Type :=
  | KernelNotFound (path : string)
  | RootfsNotFound (path : string).

Definition is_empty (s : string) : bool := bool_decide (s = "").

Definition baseKernelArgs : string := "console=ttyS0 reboot=k panic=1 pci=off".

(** Lines 265-275: the kernel command line. *)
Definition kernelArgs (cfg : VMConfig) : string :=
  let kernelArgs :=
    if is_empty (KernelArgs cfg) then baseKernelArgs else KernelArgs cfg in
  if negb (is_empty (IPAddress cfg)) && negb (is_empty (Gateway cfg))
  then kernelArgs +:+ " ip=" +:+ IPAddress cfg +:+ "::" +:+ Gateway cfg
                  +:+ ":255.255.0.0::eth0:off"
  else kernelArgs.

Definition rootfsDrive (cfg : VMConfig) : Drive :=
  {| DriveID := "rootfs"; PathOnHost := RootfsPath cfg;
     IsRootDevice := true; IsReadOnly := false |}.

Definition mountDriveEntry (i : nat) (mountDrive : MountDrive) : Drive :=
  {| DriveID := "mount" +:+ pretty i; PathOnHost := md_ImagePath mountDrive;
     IsRootDevice := false; IsReadOnly := md_ReadOnly mountDrive |}.

(** The [for i, mountDrive := range cfg.MountDrives] loop, from index [i]
    on, appending to [drives]. *)
Fixpoint appendMountDrives (i : nat) (mds : list MountDrive)
    (drives : list Drive) : list Drive :=
  match mds with
  | [] => drives
  | mountDrive :: rest =>
      appendMountDrives (S i) rest (drives ++ [mountDriveEntry i mountDrive])
  end.

(** Lines 277-296: the drive list. *)
Definition buildDrives (cfg : VMConfig) : list Drive :=
  appendMountDrives 0 (MountDrives cfg) [rootfsDrive cfg].

Definition networkInterfaces (cfg : VMConfig) : list (string * string) :=
  if is_empty (TapDevice cfg) then [] else [(TapDevice cfg, MacAddress cfg)].

(** StartVM up to the configuration it builds for [sdk.NewMachine]
    (lines 253-320): the stale socket is removed, the two image paths are
    validated, and the configuration is built.  The steps that follow
    (locating the firecracker binary, creating the log directory, creating
    and starting the machine) are not part of this function; they do not
    change the configuration. *)
Definition StartVM (fs : gmap string node) (cfg : VMConfig)
    : gmap string node * (start_error + Config) :=
  let fs := os_Remove fs (SocketPath cfg) in
  if negb (stat_ok fs (KernelPath cfg)) then
    (fs, inl (KernelNotFound (KernelPath cfg)))
  else if negb (stat_ok fs (RootfsPath cfg)) then
    (fs, inl (RootfsNotFound (RootfsPath cfg)))
  else
    (fs, inr {| cfg_SocketPath := SocketPath cfg;
                cfg_KernelImagePath := KernelPath cfg;
                cfg_KernelArgs := kernelArgs cfg;
                cfg_Drives := buildDrives cfg;
                cfg_VcpuCount := CPUs cfg;
                cfg_MemSizeMib := MemoryMB cfg;
                cfg_NetworkInterfaces := networkInterfaces cfg |}).

(** Lines 412-437. *)
Definition IsRunning (fs : gmap string node) (ps : procs)
    (socketPath : string) (pid : Z) : bool :=
  if negb (stat_ok fs socketPath) then false
  else if 0 <? pid then
    match findProcess ps pid with
    | Some _ => false
    | None =>
        match signal0 ps pid with
        | Some err => if goerror_eqb err EPERM then true else false
        | None => true
        end
    end
  else true.

End Firecracker.

(** ** IEEE 754 binary64, for [int(float64(sizeMB) * 1.2)] *)

Module F64.

Definition prec : Z := 53.
Definition emax : Z := 1024.

(** [float64(n)]: the nearest binary64 value, ties to even. *)
Definition of_int (n : Z) : spec_float := binary_normalize prec emax n 0 false.

(** The constant [1.2] as a binary64 value, 0x3FF3333333333333. *)
Definition c1_2 : spec_float := S754_finite false 5404319552844595 (-52).

Definition mul (x y : spec_float) : spec_float := SFmul prec emax x y.

Definition int_min : Z := - 2 ^ 63.
Definition int_max : Z := 2 ^ 63 - 1.

(** [int(f)]: the fraction is discarded (truncation toward zero); a value
    outside the range of [int], an infinity or a NaN gives the amd64
    "integer indefinite" value. *)
Definition to_int (f : spec_float) : Z :=
  match f with
  | S754_zero _ => 0
  | S754_finite s m e =>
      let a := if 0 <=? e then Z.pos m * 2 ^ e else Z.pos m / 2 ^ (- e) in
      let v := if s then - a else a in
      if (int_min <=? v) && (v <=? int_max) then v else int_min
  | S754_infinity _ | S754_nan => int_min
  end.

(** The state of a mantissa [m0] after [k] single-bit right shifts
    ([shr_1]): the quotient, the bit just shifted out ([shr_r]) and
    whether anything lower was non-zero ([shr_s]). *)
Definition shifted (m0 : Z) (k : Z) (mrs : shr_record) : Prop :=
  0 <= shr_m mrs
  /\ exists t,
       2 * m0 = shr_m mrs * 2 ^ (k + 1) + (if shr_r mrs then 2 ^ k else 0) + t
       /\ 0 <= t < 2 ^ k
       /\ shr_s mrs = negb (t =? 0).

End F64.

(** 64-bit two's complement wrap-around of [int] and [int64] arithmetic. *)
Definition wrap64 (z : Z) : Z := (z + 2 ^ 63) mod 2 ^ 64 - 2 ^ 63.

(** ** internal/image *)

Module Image.
Import Host.

Record Manager : Type := {
  KernelDir : string;
  RootfsDir : string
}.

Definition DefaultKernelName : string := "vmlinux.bin".
Definition DefaultRootfsName : string := "rootfs.ext4".

Inductive rootfs_error : Type :=
  | DefaultRootfsNotFound (srcPath : string)
  | CopyRootfsFailed.

(** How the three steps of [copyFile] end: [os.Open], [os.Create],
    [io.Copy] (which may stop after some bytes). *)
Inductive copy_outcome : Type :=
  | OpenFails
  | CreateFails
  | CopyStops (written : Z)
  | CopyCompletes.

Section WithJoin.

(** [filepath.Join] of the Go library. *)
Variable Join : string -> string -> string.

Definition GetDefaultKernelPath (m : Manager) : string :=
  Join (KernelDir m) DefaultKernelName.

Definition GetDefaultRootfsPath (m : Manager) : string :=
  Join (RootfsDir m) DefaultRootfsName.

(** Lines 154-170, for distinct [src] and [dst] as in its one caller;
    [true] is a nil error. *)
Definition copyFile (io : copy_outcome) (fs : gmap string node)
    (src dst : string) : gmap string node * bool :=
  match io, fs !! src with
  | OpenFails, _ | _, None | _, Some NBroken => (fs, false)
  | CreateFails, _ => (fs, false)
  | _, Some (NDir _ _) => (<[dst := NFile 0]> fs, false)
  | CopyStops written, Some (NFile _) => (<[dst := NFile written]> fs, false)
  | CopyCompletes, Some (NFile sz) => (<[dst := NFile sz]> fs, true)
  end.

(** Lines 71-93. *)
Definition CreateVMRootfs (io : copy_outcome) (fs : gmap string node)
    (m : Manager) (vmName vmDir : string)
    : gmap string node * (rootfs_error + string) :=
  let srcPath := GetDefaultRootfsPath m in
  let dstPath := Join vmDir (vmName +:+ ".ext4") in
  if stat_ok fs dstPath then (fs, inr dstPath)
  else if negb (stat_ok fs srcPath) then
    (fs, inl (DefaultRootfsNotFound srcPath))
  else
    match copyFile io fs srcPath dstPath with
    | (fs', false) => (fs', inl CopyRootfsFailed)
    | (fs', true) => (fs', inr dstPath)
    end.

End WithJoin.
End Image.

(** ** internal/mount *)

Module Mount.
Import Host.

(** Modelled from the spec: the [vm.Mount] record of [internal/vm], which
    is not among the sources; section 3 lists its fields (host path, guest
    tag, read-only flag, per-VM image path). *)
Record Mount : Type := {
  HostPath : string;
  GuestTag : string;
  ReadOnly : bool;
  ImagePath : string
}.

Definition with_ImagePath (mount : Mount) (imagePath : string) : Mount :=
  {| HostPath := HostPath mount; GuestTag := GuestTag mount;
     ReadOnly := ReadOnly mount; ImagePath := imagePath |}.

Record Manager : Type := { MountsDir : string }.

(** The failures of this package, one per [fmt.Errorf] site. *)
Inductive mount_error : Type :=
  | HostPathMissing (path : string)
  | HostPathNotDir (path : string)
  | MkdirMountsFailed
  | DirSizeFailed
  | CreateImageFileFailed
  | MkfsFailed
  | CopyToImageFailed (why : mount_error)
  | StatImageFailed
  | ResizeImageFileFailed
  | ResizeFilesystemFailed
  | MountPointFailed
  | MountImageFailed
  | ReadMountPointFailed
  | RemoveEntryFailed
  | TarStartFailed
  | TarCreateFailed
  | TarExtractFailed
  | InvalidSpec (spec : string)
  | InvalidMode (mode : string)
  | SpecHostPathMissing (path : string)
  | InvalidTag (tag : string).

(** Whether each external step succeeds: the commands run through
    [exec.Command] and the library calls on the temporary mount point.
    [truncate] sets the size of the file it names and, when it fails,
    leaves an existing file as it is (a failing [truncate] that has already
    created an empty file is not recorded); the other commands write inside
    the image and leave the size of the image file alone.  [os.MkdirAll] on
    the mounts directory is recorded by its outcome only, not by the
    directory it may create. *)
Record tools : Type := {
  mkdirAll_ok : bool;
  truncate_ok : bool;
  mkfs_ok : bool;
  resize2fs_ok : bool;
  mkdirTemp_ok : bool;
  mount_ok : bool;
  readDir_ok : bool;
  removeAll_ok : bool;
  tarStart_ok : bool;
  tarCreate_ok : bool;
  tarExtract_ok : bool
}.

Definition MiB : Z := 1024 * 1024.

(** [truncate -s <sizeMB>M path]; [true] is a nil error. *)
Definition run_truncate (t : tools) (fs : gmap string node) (path : string)
    (sizeMB : Z) : gmap string node * bool :=
  match fs !! path with
  | Some (NDir _ _) => (fs, false)
  | _ => if truncate_ok t then (<[path := NFile (sizeMB * MiB)]> fs, true)
         else (fs, false)
  end.

(** The callback of [filepath.Walk] in calculateDirSize, folded over what
    is below a path: [acc] is the variable [size]; [None] is the error that
    stops the walk. *)
Fixpoint walkSize (n : node) (acc : Z) : option Z :=
  match n with
  | NBroken => None
  | NFile sz => Some (wrap64 (acc + sz))
  | NDir false _ => None
  | NDir true entries =>
      (fix walkEntries (es : list node) (acc : Z) : option Z :=
         match es with
         | [] => Some acc
         | e :: es' =>
             match walkSize e acc with
             | None => None
             | Some acc' => walkEntries es' acc'
             end
         end) entries acc
  end.

(** Lines 239-257: the size of a directory in MB, rounded up. *)
Definition calculateDirSize (fs : gmap string node) (path : string) : option Z :=
  match fs !! path with
  | None => None
  | Some n =>
      match walkSize n 0 with
      | None => None
      | Some size => Some (wrap64 (Z.quot (wrap64 (size + 1024 * 1024 - 1)) (1024 * 1024)))
      end
  end.

(** The sum of the sizes of the entries below a node that are not
    directories: the total the callback accumulates, without the 64-bit
    wrap-around. *)
Fixpoint totalBytes (n : node) : Z :=
  match n with
  | NFile sz => sz
  | NBroken => 0
  | NDir _ entries =>
      (fix sum (es : list node) : Z :=
         match es with
         | [] => 0
         | e :: es' => totalBytes e + sum es'
         end) entries
  end.

(** A tree the walk gets through: every directory can be listed, nothing
    is broken, and sizes are not negative. *)
Fixpoint walkable (n : node) : bool :=
  match n with
  | NFile sz => 0 <=? sz
  | NBroken => false
  | NDir readable entries =>
      readable &&
      (fix all (es : list node) : bool :=
         match es with
         | [] => true
         | e :: es' => walkable e && all es'
         end) entries
  end.

(** Lines 51-55 and 106-109: the 20% overhead and the 16 MB minimum. *)
Definition withOverhead (sizeMB : Z) : Z :=
  let sizeMB := F64.to_int (F64.mul (F64.of_int sizeMB) F64.c1_2) in
  if sizeMB <? 16 then 16 else sizeMB.

(** Lines 205-237, after the function was entered: the mount point, the
    loop mount and the tar pipe.  The deferred [umount] and [RemoveAll] run
    on every path and touch only the temporary mount point. *)
Definition copyFilesToImage (t : tools) : option mount_error :=
  if negb (mkdirTemp_ok t) then Some MountPointFailed
  else if negb (mount_ok t) then Some MountImageFailed
  else if negb (tarStart_ok t) then Some TarStartFailed
  else if negb (tarCreate_ok t) then Some TarCreateFailed
  else if negb (tarExtract_ok t) then Some TarExtractFailed
  else None.

Section WithJoin.

(** [filepath.Join] of the Go library. *)
Variable Join : string -> string -> string.

(** Lines 200-203. *)
Definition GetMountImagePath (m : Manager) (vmName guestTag : string) : string :=
  Join (MountsDir m) (vmName +:+ "-" +:+ guestTag +:+ ".ext4").

(** Lines 24-78.  The result carries the file system afterwards, the mount
    record (its [ImagePath] is assigned through the pointer) and the error,
    [None] for nil. *)
Definition CreateMountImage (t : tools) (fs : gmap string node) (m : Manager)
    (mount : Mount) (vmName : string)
    : gmap string node * Mount * option mount_error :=
  match os_Stat fs (HostPath mount) with
  | StatNotExist | StatErr => (fs, mount, Some (HostPathMissing (HostPath mount)))
  | StatOk false _ => (fs, mount, Some (HostPathNotDir (HostPath mount)))
  | StatOk true _ =>
      let imagePath := GetMountImagePath m vmName (GuestTag mount) in
      let mount := with_ImagePath mount imagePath in
      if negb (mkdirAll_ok t) then (fs, mount, Some MkdirMountsFailed) else
      match calculateDirSize fs (HostPath mount) with
      | None => (fs, mount, Some DirSizeFailed)
      | Some sizeMB =>
          let sizeMB := withOverhead sizeMB in
          match run_truncate t fs imagePath sizeMB with
          | (fs, false) => (fs, mount, Some CreateImageFileFailed)
          | (fs, true) =>
              if negb (mkfs_ok t) then
                (os_Remove fs imagePath, mount, Some MkfsFailed)
              else
                match copyFilesToImage t with
                | Some err =>
                    (os_Remove fs imagePath, mount, Some (CopyToImageFailed err))
                | None => (fs, mount, None)
                end
          end
      end
  end.

(** Lines 132-178: mounting the image, clearing it and copying the host
    directory in; none of it changes the size of the image file. *)
Definition syncContents (t : tools) : option mount_error :=
  if negb (mkdirTemp_ok t) then Some MountPointFailed
  else if negb (mount_ok t) then Some MountImageFailed
  else if negb (readDir_ok t) then Some ReadMountPointFailed
  else if negb (removeAll_ok t) then Some RemoveEntryFailed
  else if negb (tarStart_ok t) then Some TarStartFailed
  else if negb (tarCreate_ok t) then Some TarCreateFailed
  else if negb (tarExtract_ok t) then Some TarExtractFailed
  else None.

(** Lines 80-179. *)
Definition SyncMountImage (t : tools) (fs : gmap string node) (m : Manager)
    (mount : Mount) (vmName : string)
    : gmap string node * Mount * option mount_error :=
  let mount :=
    if bool_decide (ImagePath mount = "")
    then with_ImagePath mount (GetMountImagePath m vmName (GuestTag mount))
    else mount in
  match os_Stat fs (ImagePath mount) with
  | StatNotExist => CreateMountImage t fs m mount vmName
  | _ =>
      match os_Stat fs (HostPath mount) with
      | StatNotExist | StatErr =>
          (fs, mount, Some (HostPathMissing (HostPath mount)))
      | StatOk false _ => (fs, mount, Some (HostPathNotDir (HostPath mount)))
      | StatOk true _ =>
          match calculateDirSize fs (HostPath mount) with
          | None => (fs, mount, Some DirSizeFailed)
          | Some sizeMB =>
              let sizeMB := withOverhead sizeMB in
              match os_Stat fs (ImagePath mount) with
              | StatNotExist | StatErr => (fs, mount, Some StatImageFailed)
              | StatOk _ imgSize =>
                  let currentSizeMB := wrap64 (Z.quot imgSize (1024 * 1024)) in
                  let resized :=
                    if currentSizeMB <? sizeMB then
                      match run_truncate t fs (ImagePath mount) sizeMB with
                      | (fs, false) => (fs, Some ResizeImageFileFailed)
                      | (fs, true) =>
                          (* e2fsck runs here; its result is ignored *)
                          if negb (resize2fs_ok t)
                          then (fs, Some ResizeFilesystemFailed)
                          else (fs, None)
                      end
                    else (fs, None) in
                  match resized with
                  | (fs, Some err) => (fs, mount, Some err)
                  | (fs, None) => (fs, mount, syncContents t)
                  end
              end
          end
      end
  end.

End WithJoin.

(** *** Mount specifications *)

(** The two backward loops of splitMountSpec: the indices below [i] are
    examined from [i - 1] down to 0; -1 when no colon is found. *)
Fixpoint scanColon (s : string) (i : nat) : Z :=
  match i with
  | O => -1
  | S j =>
      if bool_decide (String.get j s = Some ":"%char) then Z.of_nat j
      else scanColon s j
  end.

(** [s[k:]] and [s[:k]]. *)
Definition sliceFrom (s : string) (k : nat) : string :=
  String.substring k (String.length s - k)%nat s.
Definition sliceTo (s : string) (k : nat) : string :=
  String.substring 0 k s.

Definition isMode (s : string) : bool :=
  bool_decide (s = "ro") || bool_decide (s = "rw").

(** Lines 299-344. *)
Definition splitMountSpec (spec : string) : list string :=
  let remaining := spec in
  let lastColon := scanColon remaining (String.length remaining) in
  if lastColon =? -1 then [remaining] else
  let lastPart := sliceFrom remaining (Z.to_nat (lastColon + 1)) in
  let remaining := sliceTo remaining (Z.to_nat lastColon) in
  if isMode lastPart then
    let secondLastColon := scanColon remaining (String.length remaining) in
    if secondLastColon =? -1 then [remaining; lastPart] else
    let tag := sliceFrom remaining (Z.to_nat (secondLastColon + 1)) in
    let path := sliceTo remaining (Z.to_nat secondLastColon) in
    [path; tag; lastPart]
  else [remaining; lastPart].

(** The test of line 291 on one character.  The Go loop ranges over runes;
    a rune passes only if it is one of these ASCII characters, and in UTF-8
    such a rune is exactly one byte of that value, so the test on bytes
    accepts the same tags. *)
Definition tagChar (c : ascii) : bool :=
  let c := N_of_ascii c in
  ((97 <=? c) && (c <=? 122) || (65 <=? c) && (c <=? 90)
   || (48 <=? c) && (c <=? 57) || (c =? 45) || (c =? 95))%N.

(** Lines 290-294: [true] when the loop ends without returning an error. *)
Fixpoint tagCharsOk (tag : string) : bool :=
  match tag with
  | EmptyString => true
  | String c rest => if negb (tagChar c) then false else tagCharsOk rest
  end.

(** Lines 284-294: the two validations of the assembled mount. *)
Definition validateMount (fs : gmap string node) (mount : Mount)
    : mount_error + Mount :=
  if negb (stat_ok fs (HostPath mount)) then
    inl (SpecHostPathMissing (HostPath mount))
  else if negb (tagCharsOk (GuestTag mount)) then
    inl (InvalidTag (GuestTag mount))
  else inr mount.

(** Lines 259-297. *)
Definition ParseMountSpec (fs : gmap string node) (spec : string)
    : mount_error + Mount :=
  let parts := splitMountSpec spec in
  match parts with
  | [] | [_] | _ :: _ :: _ :: _ :: _ => inl (InvalidSpec spec)
  | hostPath :: guestTag :: rest =>
      let mount := {| HostPath := hostPath; GuestTag := guestTag;
                      ReadOnly := false; ImagePath := "" |} in
      let moded :=
        match rest with
        | [mode] =>
            if bool_decide (mode = "ro") then
              inr {| HostPath := hostPath; GuestTag := guestTag;
                     ReadOnly := true; ImagePath := "" |}
            else if bool_decide (mode = "rw") then inr mount
            else inl (InvalidMode mode)
        | _ => inr mount
        end in
      match moded with
      | inl err => inl err
      | inr mount => validateMount fs mount
      end
  end.

(** A string without the separator. *)
Fixpoint colonFree (s : string) : bool :=
  match s with
  | EmptyString => true
  | String c rest => if bool_decide (c = ":"%char) then false else colonFree rest
  end.

End Mount.

(** ** More of the host: errors of removal, directories, renaming *)

Module HostOps.
Import Host.

(** Whether [os.Remove] returns nil: it fails on a path that is not
    there and on a directory that is not empty. *)
Definition os_Remove_ok (fs : gmap string node) (path : string) : bool :=
  match fs !! path with
  | Some (NDir _ (_ :: _)) => false
  | Some _ => true
  | None => false
  end.

(** [os.MkdirAll]: nothing to do on a directory, an error on anything
    else that is there, otherwise the directory is created unless the
    system refuses ([ok] false).  [true] is a nil error. *)
Definition os_MkdirAll (ok : bool) (fs : gmap string node) (dir : string)
    : gmap string node * bool :=
  match fs !! dir with
  | Some (NDir _ _) => (fs, true)
  | Some _ => (fs, false)
  | None => if ok then (<[dir := NDir true []]> fs, true) else (fs, false)
  end.

(** [os.Create]: the file is created or truncated to no bytes; a
    directory cannot be opened for writing. *)
Definition os_Create (ok : bool) (fs : gmap string node) (path : string)
    : gmap string node * bool :=
  match fs !! path with
  | Some (NDir _ _) => (fs, false)
  | _ => if ok then (<[path := NFile 0]> fs, true) else (fs, false)
  end.

(** [os.Rename] of a file: the old name must be there and the new name
    must not be a directory. *)
Definition os_Rename (ok : bool) (fs : gmap string node) (oldpath newpath : string)
    : gmap string node * bool :=
  match fs !! oldpath with
  | None => (fs, false)
  | Some n =>
      match fs !! newpath with
      | Some (NDir _ _) => (fs, false)
      | _ => if ok then (<[newpath := n]> (delete oldpath fs), true)
             else (fs, false)
      end
  end.

(** What [os.ReadDir] returns for a directory: the entries with their
    name and whether they are directories, or one of the two kinds of
    error the callers tell apart. *)
Inductive readdir_result : Type :=
  | ReadDirOk (entries : list (string * bool))
  | ReadDirNotExist
  | ReadDirErr.

End HostOps.

(** ** internal/firecracker: reconciling a VM record *)

Module FirecrackerState.
Import Host Firecracker.

(** Modelled from the spec: the states of [vm.VM] in [internal/vm], which
    is not among the sources; section 3 names them. *)
Inductive VMState : Type :=
  | StateCreated
  | StateStarting
  | StateRunning
  | StateStopped.

(** Modelled from the spec: the fields of [vm.VM] that UpdateVMState
    reads and writes (section 3: name, state, socket path, pid). *)
Record VM : Type := {
  Name : string;
  State : VMState;
  vm_SocketPath : string;
  PID : Z
}.

Definition with_State (v : VM) (s : VMState) : VM :=
  {| Name := Name v; State := s; vm_SocketPath := vm_SocketPath v; PID := PID v |}.

(** Lines 448-457 of the client: the record is updated through the
    pointer; the result is the record afterwards. *)
Definition UpdateVMState (fs : gmap string node) (ps : procs) (v : VM) : VM :=
  if IsRunning fs ps (vm_SocketPath v) (PID v) then with_State v StateRunning
  else
    match State v with
    | StateRunning | StateStarting => with_State v StateStopped
    | _ => v
    end.

End FirecrackerState.

(** ** internal/image: deleting, listing and downloading *)

Module ImageStore.
Import Host HostOps Image.

(** How [http.Get] and the copy of the response body end. *)
Inductive http_outcome : Type :=
  | GetFails
  | BadStatus
  | BodyCopyFails (written : Z)
  | BodyComplete (size : Z).

(** How the steps of one downloadFile call end. *)
Record download : Type := {
  dl_mkdirAll_ok : bool;
  dl_create_ok : bool;
  dl_http : http_outcome;
  dl_rename_ok : bool
}.

Inductive ensure_error : Type :=
  | KernelDownloadFailed
  | RootfsDownloadFailed.

(** Lines 172-189: the names of the entries that are not directories;
    [None] is the error. *)
Fixpoint appendFiles (entries : list (string * bool)) (files : list string)
    : list string :=
  match entries with
  | [] => files
  | (name, isDir) :: rest =>
      if negb isDir then appendFiles rest (files ++ [name])
      else appendFiles rest files
  end.

Definition listFiles (readDir : string -> readdir_result) (dir : string)
    : option (list string) :=
  match readDir dir with
  | ReadDirNotExist => Some []
  | ReadDirErr => None
  | ReadDirOk entries => Some (appendFiles entries [])
  end.

(** Lines 104-112. *)
Definition ListKernels (readDir : string -> readdir_result) (m : Manager)
    : option (list string) := listFiles readDir (KernelDir m).
Definition ListRootfs (readDir : string -> readdir_result) (m : Manager)
    : option (list string) := listFiles readDir (RootfsDir m).

Section WithPaths.

(** [filepath.Join] and [filepath.Dir] of the Go library. *)
Variable Join : string -> string -> string.
Variable Dir : string -> string.

(** Lines 95-102; [true] is a nil error. *)
Definition DeleteVMRootfs (fs : gmap string node) (vmName vmDir : string)
    : gmap string node * bool :=
  let path := Join vmDir (vmName +:+ ".ext4") in
  if stat_ok fs path then (os_Remove fs path, os_Remove_ok fs path)
  else (fs, true).

(** Lines 114-152; [true] is a nil error. *)
Definition downloadFile (o : download) (fs : gmap string node) (destPath : string)
    : gmap string node * bool :=
  let dir := Dir destPath in
  match os_MkdirAll (dl_mkdirAll_ok o) fs dir with
  | (fs, false) => (fs, false)
  | (fs, true) =>
      let tmpPath := destPath +:+ ".tmp" in
      match os_Create (dl_create_ok o) fs tmpPath with
      | (fs, false) => (fs, false)
      | (fs, true) =>
          match dl_http o with
          | GetFails | BadStatus => (os_Remove fs tmpPath, false)
          | BodyCopyFails written =>
              (os_Remove (<[tmpPath := NFile written]> fs) tmpPath, false)
          | BodyComplete size =>
              os_Rename (dl_rename_ok o) (<[tmpPath := NFile size]> fs)
                tmpPath destPath
          end
      end
  end.

(** Lines 35-59: [ok] and [or] are the outcomes of the kernel and of the
    rootfs download, if they are attempted. *)
Definition EnsureDefaultImages (ok or : download) (fs : gmap string node)
    (m : Manager) : gmap string node * option ensure_error :=
  let kernelPath := Join (KernelDir m) DefaultKernelName in
  let rootfsPath := Join (RootfsDir m) DefaultRootfsName in
  let afterKernel :=
    match os_Stat fs kernelPath with
    | StatNotExist => downloadFile ok fs kernelPath
    | _ => (fs, true)
    end in
  match afterKernel with
  | (fs, false) => (fs, Some KernelDownloadFailed)
  | (fs, true) =>
      let afterRootfs :=
        match os_Stat fs rootfsPath with
        | StatNotExist => downloadFile or fs rootfsPath
        | _ => (fs, true)
        end in
      match afterRootfs with
      | (fs, false) => (fs, Some RootfsDownloadFailed)
      | (fs, true) => (fs, None)
      end
  end.

End WithPaths.
End ImageStore.

(** ** internal/mount: deleting mount images *)

Module MountStore.
Import Host HostOps Mount.

Section WithJoin.
Variable Join : string -> string -> string.

(** Lines 181-188; [true] is a nil error. *)
Definition DeleteMountImage (fs : gmap string node) (m : Manager)
    (vmName guestTag : string) : gmap string node * bool :=
  let imagePath := GetMountImagePath Join m vmName guestTag in
  match os_Stat fs imagePath with
  | StatNotExist => (fs, true)
  | _ => (os_Remove fs imagePath, os_Remove_ok fs imagePath)
  end.

(** Lines 190-198: the loop stops at the first error. *)
Fixpoint DeleteAllMountImages (fs : gmap string node) (m : Manager)
    (vmName : string) (mounts : list Mount) : gmap string node * bool :=
  match mounts with
  | [] => (fs, true)
  | mount :: rest =>
      match DeleteMountImage fs m vmName (GuestTag mount) with
      | (fs, false) => (fs, false)
      | (fs, true) => DeleteAllMountImages fs m vmName rest
      end
  end.

End WithJoin.

(** A string without a dash. *)
Fixpoint dashFree (s : string) : bool :=
  match s with
  | EmptyString => true
  | String c rest => if bool_decide (c = "-"%char) then false else dashFree rest
  end.

(** A file name that is a single path element: no slash in it. *)
Fixpoint slashFree (s : string) : bool :=
  match s with
  | EmptyString => true
  | String c rest => if bool_decide (c = "/"%char) then false else slashFree rest
  end.

(** A tree in which the walk meets an entry it cannot read: a broken
    entry or a directory that cannot be listed. *)
Fixpoint walkBlocked (n : node) : bool :=
  match n with
  | NFile _ => false
  | NBroken => true
  | NDir readable entries =>
      negb readable ||
      (fix any (es : list node) : bool :=
         match es with
         | [] => false
         | e :: es' => walkBlocked e || any es'
         end) entries
  end.

End MountStore.

(** ** Concrete hosts and configurations *)

Module Examples.
Import Host Firecracker.

Definition socketOnly : gmap string node := {[ "/run/t1.sock" := NFile 0 ]}.
Definition probe (r : option goerror) : procs :=
  {| findProcess := fun _ => None; signal0 := fun _ => r |}.

Definition twoMounts : VMConfig :=
  {| SocketPath := "/run/t1.sock"; KernelPath := "/img/vmlinux.bin";
     RootfsPath := "/vms/t1.ext4"; CPUs := 1; MemoryMB := 512;
     TapDevice := "tap0"; MacAddress := "AA:FC:00:00:00:01";
     KernelArgs := ""; LogPath := "";
     IPAddress := "172.16.0.2"; Gateway := "172.16.0.1";
     MountDrives :=
       [ {| md_ImagePath := "/mounts/t1-code.ext4"; md_Tag := "code";
            md_ReadOnly := true |};
         {| md_ImagePath := "/mounts/t1-data.ext4"; md_Tag := "data";
            md_ReadOnly := false |} ] |}.

Definition imagesPresent : gmap string node :=
  {[ "/img/vmlinux.bin" := NFile 4096; "/vms/t1.ext4" := NFile 4096 ]}.

(** A stand-in for [filepath.Join] on two clean relative or absolute
    elements. *)
Definition slashJoin (dir name : string) : string := dir +:+ "/" +:+ name.

Definition imageManager : Image.Manager :=
  {| Image.KernelDir := "/img/kernels"; Image.RootfsDir := "/img/rootfs" |}.

(** The per-VM rootfs of "t1" is there, the shared default rootfs is not. *)
Definition onlyVMRootfs : gmap string node := {[ "/vms/t1.ext4" := NFile 4096 ]}.

(** A host whose directory /data holds 10 MB of files. *)
Definition dataHost : gmap string node :=
  {[ "/data" := NDir true [NFile 4194304; NDir true [NFile 6291456]] ]}.

(** A host whose directory /data holds 14 MB in one file. *)
Definition fourteenMB : gmap string node :=
  {[ "/data" := NDir true [NFile 14680064] ]}.

Definition mountManager : Mount.Manager := {| Mount.MountsDir := "/mounts" |}.

Definition dataMount : Mount.Mount :=
  {| Mount.HostPath := "/data"; Mount.GuestTag := "data";
     Mount.ReadOnly := true; Mount.ImagePath := "" |}.

(** The same host with the 32 MB image of an earlier, larger /data. *)
Definition dataHostWithImage : gmap string node :=
  <[ "/mounts/t1-data.ext4" := NFile 33554432 ]> dataHost.

Definition allTools : Mount.tools :=
  {| Mount.mkdirAll_ok := true; Mount.truncate_ok := true;
     Mount.mkfs_ok := true; Mount.resize2fs_ok := true;
     Mount.mkdirTemp_ok := true; Mount.mount_ok := true;
     Mount.readDir_ok := true; Mount.removeAll_ok := true;
     Mount.tarStart_ok := true; Mount.tarCreate_ok := true;
     Mount.tarExtract_ok := true |}.

(** Everything works except the extraction of the tar stream. *)
Definition tarExtractFails : Mount.tools :=
  {| Mount.mkdirAll_ok := true; Mount.truncate_ok := true;
     Mount.mkfs_ok := true; Mount.resize2fs_ok := true;
     Mount.mkdirTemp_ok := true; Mount.mount_ok := true;
     Mount.readDir_ok := true; Mount.removeAll_ok := true;
     Mount.tarStart_ok := true; Mount.tarCreate_ok := true;
     Mount.tarExtract_ok := false |}.

(** The shared default rootfs is there, no per-VM rootfs yet. *)
Definition onlyDefaultRootfs : gmap string node :=
  {[ "/img/rootfs/rootfs.ext4" := NFile 314572800 ]}.

(** A stand-in for [filepath.Dir] on clean paths: everything before the
    last slash. *)
Fixpoint beforeLastSlash (path : string) : string :=
  match path with
  | EmptyString => EmptyString
  | String c rest =>
      if bool_decide (String.index 0 "/" rest = None) then EmptyString
      else String c (beforeLastSlash rest)
  end.

Definition dirOf (path : string) : string :=
  match beforeLastSlash path, path with
  | EmptyString, String "/" _ => "/"
  | EmptyString, _ => "."
  | dir, _ => dir
  end.

Definition downloadWorks (size : Z) : ImageStore.download :=
  {| ImageStore.dl_mkdirAll_ok := true; ImageStore.dl_create_ok := true;
     ImageStore.dl_http := ImageStore.BodyComplete size;
     ImageStore.dl_rename_ok := true |}.

Definition downloadBreaks (written : Z) : ImageStore.download :=
  {| ImageStore.dl_mkdirAll_ok := true; ImageStore.dl_create_ok := true;
     ImageStore.dl_http := ImageStore.BodyCopyFails written;
     ImageStore.dl_rename_ok := true |}.

(** The kernel directory as [os.ReadDir] lists it. *)
Definition kernelListing (dir : string) : HostOps.readdir_result :=
  if bool_decide (dir = "/img/kernels") then
    HostOps.ReadDirOk [("build", true); ("vmlinux-6.1", false);
                       ("vmlinux.bin", false)]
  else HostOps.ReadDirNotExist.

(** A host where /data is a regular file. *)
Definition dataIsFile : gmap string node := {[ "/data" := NFile 4096 ]}.

(** A host where /data holds a directory that cannot be listed. *)
Definition dataUnreadable : gmap string node :=
  {[ "/data" := NDir true [NFile 4096; NDir false []] ]}.

(** The host after the image of /data was created for VM "t1". *)
Definition dataHostCreated : gmap string node :=
  <[ "/mounts/t1-data.ext4" := NFile 16777216 ]> dataHost.

Definition dataMountCreated : Mount.Mount :=
  Mount.with_ImagePath dataMount "/mounts/t1-data.ext4".

(** A configuration with its own kernel arguments and a static address. *)
Definition quietBoot : VMConfig :=
  {| SocketPath := "/run/t1.sock"; KernelPath := "/img/vmlinux.bin";
     RootfsPath := "/vms/t1.ext4"; CPUs := 1; MemoryMB := 512;
     TapDevice := "tap0"; MacAddress := "AA:FC:00:00:00:01";
     KernelArgs := "console=ttyS0 quiet"; LogPath := "";
     IPAddress := "172.16.0.2"; Gateway := "172.16.0.1";
     MountDrives := [] |}.

End Examples.

(** * Properties *)

(** ** The Firecracker client *)

Module FirecrackerFacts.
Import Host Firecracker Examples.

Lemma is_empty_true s : is_empty s = true <-> s = "".
Proof. unfold is_empty. apply bool_decide_eq_true. Qed.

Lemma is_empty_false s : is_empty s = false <-> s <> "".
Proof. unfold is_empty. apply bool_decide_eq_false. Qed.

(** The loop only appends: entry [k] of the mounts lands at the end, with
    the index the loop had reached. *)
Lemma appendMountDrives_imap mds : forall i drives,
  appendMountDrives i mds drives
  = drives ++ imap (fun k md => mountDriveEntry (i + k) md) mds.
Proof.
  induction mds as [|md mds IH]; intros i drives; simpl.
  - by rewrite app_nil_r.
  - rewrite IH, <- app_assoc. simpl. rewrite Nat.add_0_r.
    do 2 f_equal. apply imap_ext. intros k x _. simpl.
    f_equal. lia.
Qed.

Lemma buildDrives_eq cfg :
  buildDrives cfg
  = rootfsDrive cfg :: imap mountDriveEntry (MountDrives cfg).
Proof. unfold buildDrives. by rewrite appendMountDrives_imap. Qed.

Lemma StartVM_valid fs cfg :
  let fs' := os_Remove fs (SocketPath cfg) in
  stat_ok fs' (KernelPath cfg) = true ->
  stat_ok fs' (RootfsPath cfg) = true ->
  exists c, StartVM fs cfg = (fs', inr c)
    /\ cfg_Drives c = buildDrives cfg
    /\ cfg_KernelArgs c = kernelArgs cfg.
Proof.
  intros fs' Hk Hr. unfold StartVM. fold fs'. rewrite Hk, Hr. simpl.
  eexists. split; [reflexivity|]. split; reflexivity.
Qed.

(** C1: without the socket file the VM is reported as not running,
    whatever the pid; with the socket file and a positive pid, a probe that
    is refused with EPERM reports running, a probe that fails in any other
    way (no such process) reports not running, and a probe that succeeds
    reports running. *)
Theorem C1_isRunning_probe_policy fs ps socketPath pid :
  (stat_ok fs socketPath = false -> IsRunning fs ps socketPath pid = false)
  /\ (stat_ok fs socketPath = true -> 0 < pid -> findProcess ps pid = None ->
      (signal0 ps pid = Some EPERM -> IsRunning fs ps socketPath pid = true)
      /\ (forall err, signal0 ps pid = Some err -> err <> EPERM ->
          IsRunning fs ps socketPath pid = false)
      /\ (signal0 ps pid = None -> IsRunning fs ps socketPath pid = true)).
Proof.
  unfold IsRunning. split.
  - intros ->. reflexivity.
  - intros -> Hpid ->. apply Z.ltb_lt in Hpid. rewrite Hpid. simpl.
    repeat split.
    + intros ->. reflexivity.
    + intros err -> Hne.
      destruct err as [code| |msg]; simpl; try reflexivity.
      destruct (code =? 1) eqn:E; [|reflexivity].
      apply Z.eqb_eq in E. subst. by destruct Hne.
    + intros ->. reflexivity.
Qed.

Lemma C1_isRunning_probe_policy_witness :
  IsRunning ∅ (probe None) "/run/t1.sock" 4242 = false
  /\ IsRunning socketOnly (probe (Some EPERM)) "/run/t1.sock" 4242 = true
  /\ IsRunning socketOnly (probe (Some ESRCH)) "/run/t1.sock" 4242 = false
  /\ IsRunning socketOnly (probe (Some ErrProcessDone)) "/run/t1.sock" 4242 = false
  /\ IsRunning socketOnly (probe None) "/run/t1.sock" 4242 = true.
Proof.
  pose proof (fun r => proj2 (C1_isRunning_probe_policy socketOnly (probe r)
                "/run/t1.sock" 4242) eq_refl eq_refl eq_refl) as Hprobe.
  split.
  { apply (proj1 (C1_isRunning_probe_policy ∅ (probe None) "/run/t1.sock" 4242)).
    reflexivity. }
  split; [exact (proj1 (Hprobe (Some EPERM)) eq_refl)|].
  split.
  { apply (proj1 (proj2 (Hprobe (Some ESRCH))) ESRCH eq_refl). discriminate. }
  split.
  { apply (proj1 (proj2 (Hprobe (Some ErrProcessDone))) ErrProcessDone eq_refl).
    discriminate. }
  exact (proj2 (proj2 (Hprobe None)) eq_refl).
Defined.

(** C10: with the socket file present and a pid that is zero or negative,
    no probe is made and the VM is reported as running. *)
Theorem C10_isRunning_without_pid fs ps socketPath pid :
  pid <= 0 -> stat_ok fs socketPath = true ->
  IsRunning fs ps socketPath pid = true.
Proof.
  intros Hpid Hs. unfold IsRunning. rewrite Hs. simpl.
  destruct (0 <? pid) eqn:E; [|reflexivity].
  apply Z.ltb_lt in E. lia.
Qed.

Lemma C10_isRunning_without_pid_witness :
  IsRunning socketOnly (probe (Some ESRCH)) "/run/t1.sock" 0 = true.
Proof.
  apply C10_isRunning_without_pid; [lia | reflexivity].
Defined.

(** C2: when the kernel and the rootfs are found, StartVM hands the SDK a
    drive list of one more entry than there are mounts: first the drive
    "rootfs", root device and writable, on the rootfs path; then, for the
    mount at position i, the drive "mount<i>" on that mount's image, not a
    root device, with that mount's read-only flag. *)
Theorem C2_drive_list_order fs cfg :
  stat_ok (os_Remove fs (SocketPath cfg)) (KernelPath cfg) = true ->
  stat_ok (os_Remove fs (SocketPath cfg)) (RootfsPath cfg) = true ->
  exists c,
    StartVM fs cfg = (os_Remove fs (SocketPath cfg), inr c)
    /\ length (cfg_Drives c) = S (length (MountDrives cfg))
    /\ cfg_Drives c !! 0%nat
       = Some {| DriveID := "rootfs"; PathOnHost := RootfsPath cfg;
                 IsRootDevice := true; IsReadOnly := false |}
    /\ forall (i : nat) md, MountDrives cfg !! i = Some md ->
       cfg_Drives c !! S i
       = Some {| DriveID := "mount" +:+ pretty i;
                 PathOnHost := md_ImagePath md;
                 IsRootDevice := false; IsReadOnly := md_ReadOnly md |}.
Proof.
  intros Hk Hr.
  destruct (StartVM_valid fs cfg Hk Hr) as (c & Hc & Hd & _).
  exists c. split; [exact Hc|]. rewrite Hd, buildDrives_eq.
  split; [simpl; by rewrite length_imap|].
  split; [reflexivity|].
  intros i md Hi. simpl. rewrite list_lookup_imap, Hi. reflexivity.
Qed.

Lemma C2_drive_list_order_witness :
  exists c,
    StartVM imagesPresent twoMounts = (imagesPresent, inr c)
    /\ cfg_Drives c
       = [ {| DriveID := "rootfs"; PathOnHost := "/vms/t1.ext4";
              IsRootDevice := true; IsReadOnly := false |};
           {| DriveID := "mount0"; PathOnHost := "/mounts/t1-code.ext4";
              IsRootDevice := false; IsReadOnly := true |};
           {| DriveID := "mount1"; PathOnHost := "/mounts/t1-data.ext4";
              IsRootDevice := false; IsReadOnly := false |} ].
Proof.
  destruct (C2_drive_list_order imagesPresent twoMounts) as (c & Hc & _).
  - vm_compute. reflexivity.
  - vm_compute. reflexivity.
  - exists c. split.
    + rewrite Hc. reflexivity.
    + vm_compute in Hc. injection Hc as <-. reflexivity.
Defined.

(** C5: without a kernel-arguments override, StartVM launches with the base
    arguments followed by the static-IP parameter (netmask 255.255.0.0)
    when both the address and the gateway are set, and with the base
    arguments alone when either is empty. *)
Theorem C5_kernel_args fs cfg :
  KernelArgs cfg = "" ->
  stat_ok (os_Remove fs (SocketPath cfg)) (KernelPath cfg) = true ->
  stat_ok (os_Remove fs (SocketPath cfg)) (RootfsPath cfg) = true ->
  exists c,
    StartVM fs cfg = (os_Remove fs (SocketPath cfg), inr c)
    /\ (IPAddress cfg <> "" -> Gateway cfg <> "" ->
        cfg_KernelArgs c
        = "console=ttyS0 reboot=k panic=1 pci=off ip=" +:+ IPAddress cfg
          +:+ "::" +:+ Gateway cfg +:+ ":255.255.0.0::eth0:off")
    /\ (IPAddress cfg = "" \/ Gateway cfg = "" ->
        cfg_KernelArgs c = "console=ttyS0 reboot=k panic=1 pci=off").
Proof.
  intros Hargs Hk Hr.
  destruct (StartVM_valid fs cfg Hk Hr) as (c & Hc & _ & Ha).
  exists c. split; [exact Hc|]. rewrite Ha. unfold kernelArgs.
  rewrite Hargs. change (is_empty "") with true. cbv iota. split.
  - intros Hip Hgw. apply is_empty_false in Hip, Hgw.
    rewrite Hip, Hgw. reflexivity.
  - intros [Hip|Hgw].
    + apply is_empty_true in Hip. rewrite Hip. reflexivity.
    + apply is_empty_true in Hgw. rewrite Hgw.
      by rewrite andb_false_r.
Qed.

Lemma C5_kernel_args_witness :
  exists c,
    StartVM imagesPresent twoMounts = (imagesPresent, inr c)
    /\ cfg_KernelArgs c
       = "console=ttyS0 reboot=k panic=1 pci=off ip=172.16.0.2::172.16.0.1:255.255.0.0::eth0:off".
Proof.
  destruct (C5_kernel_args imagesPresent twoMounts) as (c & Hc & Hip & _).
  - reflexivity.
  - vm_compute. reflexivity.
  - vm_compute. reflexivity.
  - exists c. split.
    + rewrite Hc. reflexivity.
    + apply Hip; discriminate.
Defined.

End FirecrackerFacts.

(** ** The image manager *)

Module ImageFacts.
Import Host Image Examples.

Section WithJoin.
Variable Join : string -> string -> string.

(** C8, as the code has it: an existing per-VM rootfs is returned without
    looking at the shared default rootfs; when the per-VM rootfs is not
    there and the default rootfs is missing, CreateVMRootfs fails and
    leaves the file system as it was. *)
Theorem C8_rootfs_source_missing io fs m vmName vmDir :
  let dstPath := Join vmDir (vmName +:+ ".ext4") in
  let srcPath := GetDefaultRootfsPath Join m in
  (stat_ok fs dstPath = true ->
   CreateVMRootfs Join io fs m vmName vmDir = (fs, inr dstPath))
  /\ (stat_ok fs dstPath = false -> stat_ok fs srcPath = false ->
      CreateVMRootfs Join io fs m vmName vmDir
      = (fs, inl (DefaultRootfsNotFound srcPath))).
Proof.
  intros dstPath srcPath. unfold CreateVMRootfs. fold dstPath srcPath.
  split.
  - intros ->. reflexivity.
  - intros -> ->. reflexivity.
Qed.

End WithJoin.

Lemma C8_rootfs_source_missing_witness :
  CreateVMRootfs slashJoin CopyCompletes onlyVMRootfs imageManager "t1" "/vms"
  = (onlyVMRootfs, inr "/vms/t1.ext4")
  /\ CreateVMRootfs slashJoin CopyCompletes ∅ imageManager "t1" "/vms"
     = (∅, inl (DefaultRootfsNotFound "/img/rootfs/rootfs.ext4")).
Proof.
  split.
  - apply (proj1 (C8_rootfs_source_missing slashJoin CopyCompletes onlyVMRootfs
                    imageManager "t1" "/vms")).
    vm_compute. reflexivity.
  - apply (proj2 (C8_rootfs_source_missing slashJoin CopyCompletes ∅
                    imageManager "t1" "/vms")); vm_compute; reflexivity.
Defined.

(** The claim of C8 as written is refuted: the default rootfs is missing,
    yet the call succeeds because the per-VM rootfs exists. *)
Lemma C8_rootfs_source_missing_counterexample :
  ~ (forall io fs m vmName vmDir,
       stat_ok fs (GetDefaultRootfsPath slashJoin m) = false ->
       exists err,
         snd (CreateVMRootfs slashJoin io fs m vmName vmDir) = inl err).
Proof.
  intros claim.
  destruct (claim CopyCompletes onlyVMRootfs imageManager "t1" "/vms")
    as [err Herr].
  - vm_compute. reflexivity.
  - vm_compute in Herr. discriminate.
Qed.

End ImageFacts.

(** ** Mount specifications *)

Module MountSpecFacts.
Import Host Mount Examples.

(** *** Byte strings: indexing and slicing across a concatenation *)

Lemma app_cons c (p r : string) : String c p +:+ r = String c (p +:+ r).
Proof. reflexivity. Qed.

Lemma string_app_assoc (a b r : string) : (a +:+ b) +:+ r = a +:+ b +:+ r.
Proof.
  induction a as [|c a IH]; [reflexivity|].
  rewrite (app_cons c a b), (app_cons c (a +:+ b) r), (app_cons c a (b +:+ r)).
  by rewrite IH.
Qed.

Lemma length_app (p r : string) :
  String.length (p +:+ r) = (String.length p + String.length r)%nat.
Proof. induction p as [|c p IH]; [reflexivity|]. rewrite app_cons. simpl. by rewrite IH. Qed.

Lemma get_app_r (p r : string) j :
  String.get (String.length p + j) (p +:+ r) = String.get j r.
Proof. rewrite Nat.add_comm. symmetry. apply append_correct2. Qed.

Lemma substring_all (r : string) : String.substring 0 (String.length r) r = r.
Proof. induction r as [|c r IH]; [reflexivity|]. simpl. by rewrite IH. Qed.

Lemma sliceTo_app (p r : string) : sliceTo (p +:+ r) (String.length p) = p.
Proof.
  unfold sliceTo. induction p as [|c p IH].
  - by destruct r.
  - rewrite app_cons. simpl. by rewrite IH.
Qed.

Lemma substring_skip (p r : string) m :
  String.substring (String.length p) m (p +:+ r) = String.substring 0 m r.
Proof. induction p as [|c p IH]; [reflexivity|]. rewrite app_cons. simpl. apply IH. Qed.

Lemma sliceFrom_app (p r : string) : sliceFrom (p +:+ r) (String.length p) = r.
Proof.
  unfold sliceFrom. rewrite substring_skip, length_app.
  replace (String.length p + String.length r - String.length p)%nat
    with (String.length r) by lia.
  apply substring_all.
Qed.

(** *** The backward scan *)

Lemma colonFree_get (q : string) : colonFree q = true ->
  forall j, String.get j q <> Some ":"%char.
Proof.
  induction q as [|c q IH]; intros Hq j; [by destruct j|].
  simpl in Hq. case_bool_decide as Hc; [discriminate|].
  destruct j as [|j]; simpl.
  - intros [= ->]. by apply Hc.
  - by apply IH.
Qed.

Lemma scanColon_none (s : string) : colonFree s = true ->
  forall i, scanColon s i = -1.
Proof.
  intros Hs. induction i as [|i IH]; [reflexivity|]. simpl.
  rewrite bool_decide_eq_false_2; [exact IH|]. by apply colonFree_get.
Qed.

Lemma scanColon_last (p q : string) : colonFree q = true ->
  forall k, (k <= String.length q)%nat ->
  scanColon (p +:+ ":" +:+ q) (S (String.length p + k)) = Z.of_nat (String.length p).
Proof.
  intros Hq. induction k as [|k IH]; intros Hk.
  - rewrite Nat.add_0_r. simpl.
    rewrite bool_decide_eq_true_2; [reflexivity|].
    rewrite <- (Nat.add_0_r (String.length p)) at 1. by rewrite get_app_r.
  - replace (S (String.length p + S k)) with (S (S (String.length p + k))) by lia.
    cbn [scanColon]. rewrite bool_decide_eq_false_2.
    + apply IH. lia.
    + replace (S (String.length p + k)) with (String.length p + S k)%nat by lia.
      rewrite get_app_r. change (String.get (S k) (":" +:+ q)) with (String.get k q).
      by apply colonFree_get.
Qed.

Lemma lastColon_app (p q : string) : colonFree q = true ->
  scanColon (p +:+ ":" +:+ q) (String.length (p +:+ ":" +:+ q))
  = Z.of_nat (String.length p).
Proof.
  intros Hq. rewrite length_app.
  change (String.length (":" +:+ q)) with (S (String.length q)).
  replace (String.length p + S (String.length q))%nat
    with (S (String.length p + String.length q)) by lia.
  by apply scanColon_last.
Qed.

(** Every string is free of colons or ends in a colon-free last field. *)
Lemma last_field (s : string) :
  colonFree s = true
  \/ exists p q, s = p +:+ ":" +:+ q /\ colonFree q = true.
Proof.
  induction s as [|c s IH]; [by left|].
  destruct IH as [Hs|(p & q & -> & Hq)].
  - simpl. case_bool_decide as Hc; [|by left].
    right. exists "", s. by subst.
  - right. exists (String c p), q. by split.
Qed.

Lemma isMode_colonFree (q : string) : isMode q = true -> colonFree q = true.
Proof.
  unfold isMode. intros [H|H]%orb_true_iff; apply bool_decide_eq_true in H;
    by subst.
Qed.

(** *** What splitMountSpec returns, by the shape of the specification *)

Lemma split_no_colon (spec : string) :
  colonFree spec = true -> splitMountSpec spec = [spec].
Proof. intros Hs. unfold splitMountSpec. by rewrite scanColon_none. Qed.

Lemma split_at_last (p q : string) : colonFree q = true ->
  splitMountSpec (p +:+ ":" +:+ q)
  = if isMode q then
      let secondLastColon := scanColon p (String.length p) in
      if secondLastColon =? -1 then [p; q]
      else [sliceTo p (Z.to_nat secondLastColon);
            sliceFrom p (Z.to_nat (secondLastColon + 1)); q]
    else [p; q].
Proof.
  intros Hq. unfold splitMountSpec. rewrite lastColon_app by done.
  destruct (Z.of_nat (String.length p) =? -1) eqn:E; [apply Z.eqb_eq in E; lia|].
  rewrite Nat2Z.id, sliceTo_app.
  replace (Z.to_nat (Z.of_nat (String.length p) + 1))
    with (String.length (p +:+ ":")).
  2:{ rewrite length_app. simpl. lia. }
  rewrite <- (string_app_assoc p ":" q).
  rewrite sliceFrom_app. reflexivity.
Qed.

Lemma split_tag_only (p q : string) :
  colonFree q = true -> isMode q = false ->
  splitMountSpec (p +:+ ":" +:+ q) = [p; q].
Proof. intros Hq Hm. rewrite split_at_last by done. by rewrite Hm. Qed.

Lemma split_single_colon (p q : string) :
  colonFree p = true -> colonFree q = true ->
  splitMountSpec (p +:+ ":" +:+ q) = [p; q].
Proof.
  intros Hp Hq. rewrite split_at_last by done.
  rewrite scanColon_none by done. simpl. by destruct (isMode q).
Qed.

Lemma split_with_mode (p t q : string) :
  colonFree t = true -> isMode q = true ->
  splitMountSpec (p +:+ ":" +:+ t +:+ ":" +:+ q) = [p; t; q].
Proof.
  intros Ht Hm.
  replace (p +:+ ":" +:+ t +:+ ":" +:+ q) with ((p +:+ ":" +:+ t) +:+ ":" +:+ q).
  2:{ by rewrite !string_app_assoc. }
  rewrite split_at_last by by apply isMode_colonFree.
  rewrite Hm. cbv zeta. rewrite lastColon_app by done.
  destruct (Z.of_nat (String.length p) =? -1) eqn:E; [apply Z.eqb_eq in E; lia|].
  rewrite Nat2Z.id, sliceTo_app.
  replace (Z.to_nat (Z.of_nat (String.length p) + 1))
    with (String.length (p +:+ ":")).
  2:{ rewrite length_app. simpl. lia. }
  rewrite <- (string_app_assoc p ":" t).
  by rewrite sliceFrom_app.
Qed.

(** *** ParseMountSpec on the two shapes splitMountSpec can return *)

Lemma parse_two fs spec h t :
  splitMountSpec spec = [h; t] ->
  ParseMountSpec fs spec
  = validateMount fs {| HostPath := h; GuestTag := t; ReadOnly := false; ImagePath := "" |}.
Proof. intros Hs. unfold ParseMountSpec. rewrite Hs. reflexivity. Qed.

Lemma parse_three fs spec h t mode :
  splitMountSpec spec = [h; t; mode] -> isMode mode = true ->
  ParseMountSpec fs spec
  = validateMount fs {| HostPath := h; GuestTag := t;
                  ReadOnly := bool_decide (mode = "ro"); ImagePath := "" |}.
Proof.
  intros Hs Hm. unfold ParseMountSpec. rewrite Hs.
  unfold isMode in Hm. apply orb_true_iff in Hm as [Hm|Hm];
    apply bool_decide_eq_true in Hm; subst; reflexivity.
Qed.

Lemma validateMount_inr fs mount mount' :
  validateMount fs mount = inr mount' <->
  mount' = mount /\ stat_ok fs (HostPath mount) = true
  /\ tagCharsOk (GuestTag mount) = true.
Proof.
  unfold validateMount.
  destruct (stat_ok fs (HostPath mount)), (tagCharsOk (GuestTag mount)); simpl;
    split; try discriminate; try (intros (_ & ? & ?); discriminate).
  - intros [= <-]. done.
  - intros (-> & _). done.
Qed.

(** The shapes are the only ones: one part, two parts, or three parts
    ending in a mode. *)
Lemma split_shapes (spec : string) :
  (colonFree spec = true /\ splitMountSpec spec = [spec])
  \/ (exists h t, spec = h +:+ ":" +:+ t /\ colonFree t = true
       /\ (isMode t = true -> colonFree h = true)
       /\ splitMountSpec spec = [h; t])
  \/ (exists h t mode, spec = h +:+ ":" +:+ t +:+ ":" +:+ mode
       /\ colonFree t = true /\ isMode mode = true
       /\ splitMountSpec spec = [h; t; mode]).
Proof.
  destruct (last_field spec) as [Hs|(p & q & -> & Hq)].
  { left. split; [done|]. by apply split_no_colon. }
  right. destruct (isMode q) eqn:Hm.
  - destruct (last_field p) as [Hp|(h & t & -> & Ht)].
    + left. exists p, q. split; [done|]. split; [done|]. split; [done|].
      by apply split_single_colon.
    + right. exists h, t, q. rewrite string_app_assoc.
      split; [done|]. split; [done|]. split; [done|]. by apply split_with_mode.
  - left. exists p, q. split; [done|]. split; [done|]. split; [congruence|].
    by apply split_tag_only.
Qed.

Lemma tagChar_colon (c : ascii) : tagChar c = true -> c <> ":"%char.
Proof. intros Hc ->. discriminate. Qed.

Lemma tagCharsOk_colonFree (t : string) : tagCharsOk t = true -> colonFree t = true.
Proof.
  induction t as [|c t IH]; [done|]. simpl.
  destruct (tagChar c) eqn:Hc; [|discriminate]. simpl. intros Ht.
  rewrite bool_decide_eq_false_2 by by apply tagChar_colon. by apply IH.
Qed.

Lemma tagCharsOk_false (t : string) :
  tagCharsOk t = false <->
  exists i c, String.get i t = Some c /\ tagChar c = false.
Proof.
  induction t as [|c t IH]; simpl.
  - split; [discriminate|]. by intros (i & c & Hi & _); destruct i.
  - destruct (tagChar c) eqn:Hc; simpl.
    + rewrite IH. split.
      * intros (i & c' & Hi & Hc'). by exists (S i), c'.
      * intros ([|i] & c' & Hi & Hc'); simpl in Hi.
        -- injection Hi as <-. congruence.
        -- by exists i, c'.
    + split; [|done]. intros _. by exists 0%nat, c.
Qed.

(** C3, as the code has it: a specification parses to a mount exactly when
    it reads hostPath:tag:ro (read-only), hostPath:tag:rw or hostPath:tag
    (both read-write) with an existing host path and a tag that passes the
    character test, where in the two-field reading a tag that is itself
    "ro" or "rw" requires a host path without colons.  So the field after
    the last colon is the mode only when it is "ro" or "rw" and another
    colon precedes it; otherwise it is the tag; the host path is everything
    to the left of the tag and may contain colons. *)
Theorem C3_parse_mount_spec fs spec mount :
  ParseMountSpec fs spec = inr mount <->
  stat_ok fs (HostPath mount) = true
  /\ tagCharsOk (GuestTag mount) = true
  /\ ImagePath mount = ""
  /\ ((spec = HostPath mount +:+ ":" +:+ GuestTag mount +:+ ":ro"
       /\ ReadOnly mount = true)
      \/ (spec = HostPath mount +:+ ":" +:+ GuestTag mount +:+ ":rw"
          /\ ReadOnly mount = false)
      \/ (spec = HostPath mount +:+ ":" +:+ GuestTag mount
          /\ ReadOnly mount = false
          /\ (isMode (GuestTag mount) = true -> colonFree (HostPath mount) = true))).
Proof.
  split.
  - intros Hparse.
    destruct (split_shapes spec)
      as [[Hs Hsplit]|[(h & t & -> & Ht & Hh & Hsplit)
                      |(h & t & mode & -> & Ht & Hm & Hsplit)]].
    + unfold ParseMountSpec in Hparse. rewrite Hsplit in Hparse. discriminate.
    + rewrite (parse_two _ _ _ _ Hsplit) in Hparse.
      apply validateMount_inr in Hparse as (-> & Hstat & Htag). simpl in *.
      split; [done|]. split; [done|]. split; [done|]. right; right. done.
    + rewrite (parse_three _ _ _ _ _ Hsplit Hm) in Hparse.
      apply validateMount_inr in Hparse as (-> & Hstat & Htag). simpl in *.
      split; [done|]. split; [done|]. split; [done|].
      unfold isMode in Hm. apply orb_true_iff in Hm as [Hm|Hm];
        apply bool_decide_eq_true in Hm; subst mode; [left|right; left]; done.
  - destruct mount as [h t ro img]. simpl.
    intros (Hstat & Htag & -> & Hshape).
    pose proof (tagCharsOk_colonFree t Htag) as Ht.
    destruct Hshape as [[-> ->]|[[-> ->]|(-> & -> & Hh)]].
    + rewrite (parse_three fs _ h t "ro"); [|by apply split_with_mode|done].
      apply validateMount_inr. done.
    + rewrite (parse_three fs _ h t "rw"); [|by apply split_with_mode|done].
      apply validateMount_inr. done.
    + rewrite (parse_two fs _ h t); [by apply validateMount_inr|].
      destruct (isMode t) eqn:Hm.
      * apply split_single_colon; auto.
      * by apply split_tag_only.
Qed.

Lemma C3_parse_mount_spec_witness :
  ParseMountSpec dataHost "/data:code:ro"
  = inr {| HostPath := "/data"; GuestTag := "code"; ReadOnly := true;
           ImagePath := "" |}
  /\ ParseMountSpec dataHost "/data:code"
     = inr {| HostPath := "/data"; GuestTag := "code"; ReadOnly := false;
              ImagePath := "" |}.
Proof.
  split.
  - apply (proj2 (C3_parse_mount_spec dataHost "/data:code:ro"
             {| HostPath := "/data"; GuestTag := "code"; ReadOnly := true;
                ImagePath := "" |})).
    split; [reflexivity|]. split; [reflexivity|]. split; [reflexivity|].
    left. split; reflexivity.
  - apply (proj2 (C3_parse_mount_spec dataHost "/data:code"
             {| HostPath := "/data"; GuestTag := "code"; ReadOnly := false;
                ImagePath := "" |})).
    split; [reflexivity|]. split; [reflexivity|]. split; [reflexivity|].
    right; right. split; [reflexivity|]. split; [reflexivity|]. discriminate.
Defined.

(** The claim of C3 as written is refuted: in "/data:ro" the last field is
    "ro", yet it is taken as the tag and the mount is read-write. *)
Lemma C3_parse_mount_spec_counterexample :
  ~ (forall fs p q mount,
       colonFree q = true -> q = "ro" ->
       ParseMountSpec fs (p +:+ ":" +:+ q) = inr mount ->
       ReadOnly mount = true)
  /\ ParseMountSpec dataHost "/data:ro"
     = inr {| HostPath := "/data"; GuestTag := "ro"; ReadOnly := false;
              ImagePath := "" |}.
Proof.
  split; [|reflexivity].
  intros claim.
  specialize (claim dataHost "/data" "ro" _ eq_refl eq_refl eq_refl).
  discriminate.
Qed.

(** C9, as the code has it: when the parsed tag contains a character that
    is not an ASCII letter, a digit, a dash or an underscore,
    ParseMountSpec returns an error: the missing host path if the host
    path is not there (that check comes first), the invalid tag otherwise. *)
Theorem C9_invalid_tag_rejected fs spec hostPath tag rest :
  splitMountSpec spec = hostPath :: tag :: rest ->
  (exists i c, String.get i tag = Some c /\ tagChar c = false) ->
  (exists err, ParseMountSpec fs spec = inl err)
  /\ (stat_ok fs hostPath = false ->
      ParseMountSpec fs spec = inl (SpecHostPathMissing hostPath))
  /\ (stat_ok fs hostPath = true ->
      ParseMountSpec fs spec = inl (InvalidTag tag)).
Proof.
  intros Hsplit Hbad. apply tagCharsOk_false in Hbad.
  assert (ParseMountSpec fs spec
          = validateMount fs {| HostPath := hostPath; GuestTag := tag;
                          ReadOnly := false; ImagePath := "" |}
          \/ ParseMountSpec fs spec
             = validateMount fs {| HostPath := hostPath; GuestTag := tag;
                             ReadOnly := true; ImagePath := "" |}) as Hparse.
  { destruct (split_shapes spec)
      as [[_ Hs]|[(h & t & _ & _ & _ & Hs)|(h & t & mode & _ & _ & Hm & Hs)]];
      rewrite Hs in Hsplit; simplify_eq.
    - left. by apply parse_two.
    - rewrite (parse_three _ _ _ _ _ Hs Hm).
      destruct (bool_decide (mode = "ro")); [right|left]; reflexivity. }
  unfold validateMount in Hparse. simpl in Hparse. rewrite Hbad in Hparse. simpl in Hparse.
  split; [|split].
  - destruct (stat_ok fs hostPath); simpl in Hparse;
      destruct Hparse as [-> | ->]; eauto.
  - intros Hstat. rewrite Hstat in Hparse. simpl in Hparse.
    destruct Hparse as [-> | ->]; reflexivity.
  - intros Hstat. rewrite Hstat in Hparse. simpl in Hparse.
    destruct Hparse as [-> | ->]; reflexivity.
Qed.

Lemma C9_invalid_tag_rejected_witness :
  ParseMountSpec dataHost "/data:code!" = inl (InvalidTag "code!")
  /\ ParseMountSpec dataHost "/nowhere:code!"
     = inl (SpecHostPathMissing "/nowhere").
Proof.
  split.
  - refine (proj2 (proj2 (C9_invalid_tag_rejected dataHost "/data:code!"
                            "/data" "code!" [] eq_refl _)) eq_refl).
    exists 4%nat, "!"%char. split; reflexivity.
  - refine (proj1 (proj2 (C9_invalid_tag_rejected dataHost "/nowhere:code!"
                            "/nowhere" "code!" [] eq_refl _)) eq_refl).
    exists 4%nat, "!"%char. split; reflexivity.
Defined.

(** The claim of C9 as written is refuted on the empty tag: "/data:" has
    an empty tag and is accepted. *)
Lemma C9_invalid_tag_rejected_counterexample :
  ~ (forall fs spec hostPath tag rest,
       splitMountSpec spec = hostPath :: tag :: rest ->
       tag = "" \/ (exists i c, String.get i tag = Some c /\ tagChar c = false) ->
       exists err, ParseMountSpec fs spec = inl err)
  /\ ParseMountSpec dataHost "/data:"
     = inr {| HostPath := "/data"; GuestTag := ""; ReadOnly := false;
              ImagePath := "" |}.
Proof.
  split; [|reflexivity].
  intros claim.
  destruct (claim dataHost "/data:" "/data" "" [] eq_refl (or_introl eq_refl))
    as [err Herr].
  discriminate.
Qed.

End MountSpecFacts.

(** ** binary64 arithmetic *)

Module F64Facts.
Import F64.

(** *** Bit lengths *)

Lemma digits2_pos_bounds (p : positive) :
  2 ^ (Z.pos (digits2_pos p) - 1) <= Z.pos p < 2 ^ Z.pos (digits2_pos p).
Proof.
  induction p as [p IH|p IH|]; simpl digits2_pos.
  - rewrite Pos2Z.inj_succ. replace (Z.succ (Z.pos (digits2_pos p)) - 1)
      with (Z.succ (Z.pos (digits2_pos p) - 1)) by lia.
    rewrite !Z.pow_succ_r by lia. lia.
  - rewrite Pos2Z.inj_succ. replace (Z.succ (Z.pos (digits2_pos p)) - 1)
      with (Z.succ (Z.pos (digits2_pos p) - 1)) by lia.
    rewrite !Z.pow_succ_r by lia. lia.
  - simpl. lia.
Qed.

(** A positive number between two consecutive powers of two has that many bits. *)
Lemma Zdigits2_unique (m d : Z) :
  0 < d -> 2 ^ (d - 1) <= m < 2 ^ d -> Zdigits2 m = d.
Proof.
  intros Hd [Hlo Hhi].
  assert (0 < m) as Hm by (pose proof (Z.pow_pos_nonneg 2 (d - 1)); lia).
  destruct m as [|p|p]; try lia. simpl.
  pose proof (digits2_pos_bounds p) as [Hlo' Hhi'].
  set (d' := Z.pos (digits2_pos p)) in *.
  assert (d - 1 < d') by (apply (Z.pow_lt_mono_r_iff 2); lia).
  assert (d' - 1 < d) by (apply (Z.pow_lt_mono_r_iff 2); lia).
  lia.
Qed.

(** *** Shifting a mantissa right *)

Lemma iter_pos_nat {A} (f : A -> A) (p : positive) (x : A) :
  SpecFloat.iter_pos f p x = Nat.iter (Pos.to_nat p) f x.
Proof.
  revert x. induction p as [p IH|p IH|]; intros x; simpl SpecFloat.iter_pos.
  - rewrite !IH, Pos2Nat.inj_xI.
    replace (S (2 * Pos.to_nat p))%nat
      with (Pos.to_nat p + (Pos.to_nat p + 1))%nat by lia.
    rewrite !Nat.iter_add. reflexivity.
  - rewrite !IH, Pos2Nat.inj_xO.
    replace (2 * Pos.to_nat p)%nat with (Pos.to_nat p + Pos.to_nat p)%nat by lia.
    by rewrite Nat.iter_add.
  - reflexivity.
Qed.

Lemma shifted_0 m0 : 0 <= m0 ->
  shifted m0 0 {| shr_m := m0; shr_r := false; shr_s := false |}.
Proof. intros Hm. split; [done|]. exists 0. simpl. lia. Qed.

Lemma shifted_step m0 k mrs : 0 <= k ->
  shifted m0 k mrs -> shifted m0 (k + 1) (shr_1 mrs).
Proof.
  intros Hk [Hm (t & Heq & Ht & Hs)].
  destruct mrs as [m r s]. simpl in *.
  assert (2 ^ (k + 1) = 2 * 2 ^ k) as E1 by (rewrite Z.pow_add_r; lia).
  assert (2 ^ (k + 1 + 1) = 4 * 2 ^ k) as E2 by (rewrite !Z.pow_add_r; lia).
  assert (0 < 2 ^ k) as Hpow by (apply Z.pow_pos_nonneg; lia).
  assert (orb r s = negb ((if r then 2 ^ k else 0) + t =? 0)) as Hs'.
  { destruct r; simpl.
    - symmetry. apply negb_true_iff, Z.eqb_neq. lia.
    - exact Hs. }
  destruct m as [|[p|p|]|p]; simpl; try lia.
  all: unfold shifted; simpl; split; [lia|].
  all: exists ((if r then 2 ^ k else 0) + t).
  all: rewrite ?E1, ?E2 in *; split; [|split; [destruct r; lia|exact Hs']].
  all: lia.
Qed.

Lemma shifted_iter m0 (n : nat) : 0 <= m0 ->
  shifted m0 (Z.of_nat n)
    (Nat.iter n shr_1 {| shr_m := m0; shr_r := false; shr_s := false |}).
Proof.
  intros Hm. induction n as [|n IH]; [by apply shifted_0|].
  rewrite Nat2Z.inj_succ, <- Z.add_1_r. simpl Nat.iter.
  apply shifted_step; [lia|exact IH].
Qed.

(** Rounding to nearest after [k] shifts is within half a unit of [m0]. *)
Lemma round_nearest_even_shifted m0 k mrs :
  0 <= k -> shifted m0 k mrs ->
  let q := round_nearest_even (shr_m mrs) (loc_of_shr_record mrs) in
  shr_m mrs <= q <= shr_m mrs + 1
  /\ - 2 ^ k <= 2 * q * 2 ^ k - 2 * m0 <= 2 ^ k.
Proof.
  intros Hk [Hm (t & Heq & Ht & Hs)]. destruct mrs as [m r s]. simpl in *.
  assert (2 ^ (k + 1) = 2 * 2 ^ k) as E1 by (rewrite Z.pow_add_r; lia).
  rewrite E1 in Heq.
  destruct r, s; simpl; symmetry in Hs.
  all: try (apply negb_true_iff, Z.eqb_neq in Hs).
  all: try (apply negb_false_iff, Z.eqb_eq in Hs).
  all: try destruct (Z.even m); nia.
Qed.

(** *** Rounding a long mantissa to 53 bits *)

Lemma shifted_quotient m0 k mrs :
  0 <= k -> 2 ^ (52 + k) <= m0 < 2 ^ (53 + k) -> shifted m0 k mrs ->
  2 ^ 52 <= shr_m mrs < 2 ^ 53.
Proof.
  intros Hk [Hlo Hhi] [Hm (t & Heq & Ht & _)].
  rewrite (Z.pow_add_r 2 52 k) in Hlo by lia.
  rewrite (Z.pow_add_r 2 53 k) in Hhi by lia.
  rewrite (Z.pow_add_r 2 k 1) in Heq by lia.
  assert (0 < 2 ^ k) as Hpow by (apply Z.pow_pos_nonneg; lia).
  change (2 ^ 1) with 2 in Heq.
  destruct (shr_r mrs); nia.
Qed.

(** A mantissa of exactly 53 bits in the normal range is kept as it is. *)
Lemma binary_round_aux_exact (mz : positive) (ez : Z) :
  2 ^ 52 <= Z.pos mz < 2 ^ 53 -> -1074 <= ez <= 971 ->
  binary_round_aux prec emax false (Z.pos mz) ez loc_Exact
  = S754_finite false mz ez.
Proof.
  intros Hmz Hez.
  assert (shr_fexp prec emax (Z.pos mz) ez loc_Exact
          = ({| shr_m := Z.pos mz; shr_r := false; shr_s := false |}, ez)) as Hshr.
  { unfold shr_fexp. rewrite (Zdigits2_unique (Z.pos mz) 53) by (simpl; lia).
    unfold fexp, emin, prec, emax.
    replace (Z.max (53 + ez - 53) (3 - 1024 - 53) - ez) with 0 by lia.
    reflexivity. }
  unfold binary_round_aux. rewrite Hshr. simpl round_nearest_even.
  rewrite Hshr. simpl shr_m.
  unfold emax, prec. replace (ez <=? 1024 - 53) with true; [reflexivity|].
  symmetry. apply Z.leb_le. lia.
Qed.

(** The product of two 53-bit mantissas, [k] bits too long: the result
    is the nearest multiple of [2 ^ k] ([q] counts the multiples), and
    converting it to an integer divides [q] by the remaining scale. *)
Lemma to_int_binary_round_aux (m0 e k : Z) :
  1 <= k -> 2 ^ (52 + k) <= m0 < 2 ^ (53 + k) ->
  -1074 <= e + k <= -1 ->
  exists q,
    - 2 ^ k <= 2 * q * 2 ^ k - 2 * m0 <= 2 ^ k
    /\ to_int (binary_round_aux prec emax false m0 e loc_Exact)
       = q / 2 ^ (- (e + k)).
Proof.
  intros Hk Hm0 He.
  assert (exists mrs, shr_fexp prec emax m0 e loc_Exact = (mrs, e + k)
                      /\ shifted m0 k mrs) as (mrs & Hshr & Hmrs).
  { unfold shr_fexp. rewrite (Zdigits2_unique m0 (53 + k)); [|lia|].
    2:{ replace (53 + k - 1) with (52 + k) by lia. exact Hm0. }
    unfold fexp, emin, prec, emax.
    replace (Z.max (53 + k + e - 53) (3 - 1024 - 53) - e) with k by lia.
    destruct k as [|p|p]; try lia. simpl shr. rewrite iter_pos_nat.
    eexists. split; [reflexivity|].
    rewrite <- (positive_nat_Z p) at 1. apply shifted_iter.
    pose proof (Z.pow_pos_nonneg 2 (52 + Z.pos p)). lia. }
  pose proof (shifted_quotient m0 k mrs ltac:(lia) Hm0 Hmrs) as Hquot.
  destruct (round_nearest_even_shifted m0 k mrs ltac:(lia) Hmrs) as [Hq Hnear].
  set (q := round_nearest_even (shr_m mrs) (loc_of_shr_record mrs)) in *.
  exists q. split; [exact Hnear|].
  unfold binary_round_aux. rewrite Hshr. fold q.
  assert (0 < 2 ^ (- (e + k))) as Hscale by (apply Z.pow_pos_nonneg; lia).
  assert (0 <= q / 2 ^ (- (e + k)) <= q) as Hdiv.
  { split; [apply Z.div_pos; lia|].
    apply Z.div_le_upper_bound; [lia|]. nia. }
  destruct (Z.eq_dec q (2 ^ 53)) as [Hq53|Hq53].
  - (* the rounding carried into a 54th bit *)
    rewrite Hq53. 
    assert (shr_fexp prec emax (2 ^ 53) (e + k) loc_Exact
            = ({| shr_m := 2 ^ 52; shr_r := false; shr_s := false |}, e + k + 1))
      as Hshr2.
    { unfold shr_fexp. rewrite (Zdigits2_unique (2 ^ 53) 54) by (simpl; lia).
      unfold fexp, emin, prec, emax.
      replace (Z.max (54 + (e + k) - 53) (3 - 1024 - 53) - (e + k)) with 1 by lia.
      reflexivity. }
    rewrite Hshr2. simpl shr_m. change (2 ^ 52) with (Z.pos 4503599627370496).
    cbv iota. unfold emax, prec.
    replace (e + k + 1 <=? 1024 - 53) with true by (symmetry; apply Z.leb_le; lia).
    unfold to_int.
    assert (2 ^ 53 / 2 ^ (- (e + k))
            = if 0 <=? e + k + 1 then 4503599627370496 * 2 ^ (e + k + 1)
              else 4503599627370496 / 2 ^ (- (e + k + 1))) as Hval.
    { replace (- (e + k)) with (1 + - (e + k + 1)) by lia.
      destruct (0 <=? e + k + 1) eqn:E.
      - apply Z.leb_le in E. replace (e + k + 1) with 0 by lia. reflexivity.
      - apply Z.leb_gt in E. rewrite Z.pow_add_r by lia.
        change (2 ^ 53) with (2 ^ 1 * 4503599627370496).
        rewrite Z.div_mul_cancel_l; [reflexivity| |lia].
        pose proof (Z.pow_pos_nonneg 2 (- (e + k + 1))). lia. }
    rewrite <- Hval. rewrite Hq53 in Hdiv.
    unfold int_min, int_max.
    replace ((- 2 ^ 63 <=? 2 ^ 53 / 2 ^ (- (e + k)))
             && (2 ^ 53 / 2 ^ (- (e + k)) <=? 2 ^ 63 - 1)) with true; [reflexivity|].
    symmetry. apply andb_true_iff. split; apply Z.leb_le; lia.
  - assert (2 ^ 52 <= q < 2 ^ 53) as Hq' by lia.
    destruct q as [|pq|pq]; try lia.
    assert (shr_fexp prec emax (Z.pos pq) (e + k) loc_Exact
            = ({| shr_m := Z.pos pq; shr_r := false; shr_s := false |}, e + k))
      as Hshr2.
    { unfold shr_fexp. rewrite (Zdigits2_unique (Z.pos pq) 53) by (simpl; lia).
      unfold fexp, emin, prec, emax.
      replace (Z.max (53 + (e + k) - 53) (3 - 1024 - 53) - (e + k)) with 0 by lia.
      reflexivity. }
    rewrite Hshr2. simpl shr_m. cbv iota. unfold emax, prec.
    replace (e + k <=? 1024 - 53) with true by (symmetry; apply Z.leb_le; lia).
    unfold to_int.
    replace (0 <=? e + k) with false by (symmetry; apply Z.leb_gt; lia).
    unfold int_min, int_max.
    replace ((- 2 ^ 63 <=? Z.pos pq / 2 ^ (- (e + k)))
             && (Z.pos pq / 2 ^ (- (e + k)) <=? 2 ^ 63 - 1)) with true; [reflexivity|].
    symmetry. apply andb_true_iff. split; apply Z.leb_le; lia.
Qed.

(** *** [float64(n)] for a positive integer of at most 53 bits *)

Lemma iter_xO (p j : positive) : Z.pos (Pos.iter xO p j) = Z.pos p * 2 ^ Z.pos j.
Proof.
  induction j as [|j IH] using Pos.peano_ind.
  - change (Pos.iter xO p 1) with (p~0)%positive. change (2 ^ 1) with 2. lia.
  - rewrite Pos.iter_succ, Pos2Z.inj_xO, IH, Pos2Z.inj_succ, Z.pow_succ_r; lia.
Qed.

Lemma scale_to_53_bits (n d : Z) :
  0 < d <= 53 -> 2 ^ (d - 1) <= n < 2 ^ d ->
  2 ^ 52 <= n * 2 ^ (53 - d) < 2 ^ 53.
Proof.
  intros Hd [Hlo Hhi].
  assert (0 < 2 ^ (53 - d)) as Hpow by (apply Z.pow_pos_nonneg; lia).
  assert (2 ^ 52 = 2 ^ (d - 1) * 2 ^ (53 - d)) as ->.
  { rewrite <- Z.pow_add_r by lia. f_equal. lia. }
  assert (2 ^ 53 = 2 ^ d * 2 ^ (53 - d)) as ->.
  { rewrite <- Z.pow_add_r by lia. f_equal. lia. }
  split.
  - apply Z.mul_le_mono_nonneg_r; lia.
  - apply Z.mul_lt_mono_pos_r; lia.
Qed.

Lemma of_int_pos (n d : Z) :
  0 < d <= 53 -> 2 ^ (d - 1) <= n < 2 ^ d ->
  of_int n = S754_finite false (Z.to_pos (n * 2 ^ (53 - d))) (d - 53).
Proof.
  intros Hd Hn.
  assert (0 < n) as Hpos by (pose proof (Z.pow_pos_nonneg 2 (d - 1)); lia).
  pose proof (Zdigits2_unique n d ltac:(lia) Hn) as Hdig.
  destruct n as [|p|p]; try lia. simpl in Hdig.
  unfold of_int, binary_normalize, binary_round. rewrite Hdig.
  unfold fexp, emin, prec, emax.
  replace (Z.max (d + 0 - 53) (3 - 1024 - 53)) with (d - 53) by lia.
  pose proof (scale_to_53_bits (Z.pos p) d Hd Hn) as Hmz.
  assert (shl_align p 0 (d - 53)
          = (Z.to_pos (Z.pos p * 2 ^ (53 - d)), d - 53)) as ->.
  { unfold shl_align. destruct (Z.eq_dec d 53) as [->|Hne].
    - change (shl_align p 0 (53 - 53)) with (p, 53 - 53).
      f_equal. apply Pos2Z.inj. rewrite Z2Pos.id by lia.
      change (2 ^ (53 - 53)) with 1. lia.
    - destruct (d - 53 - 0) as [|j|j] eqn:Ej; try lia.
      f_equal. apply Pos2Z.inj. rewrite iter_xO, Z2Pos.id by lia.
      do 2 f_equal. lia. }
  apply binary_round_aux_exact; [|lia].
  rewrite Z2Pos.id by lia. exact Hmz.
Qed.

(** *** The overhead factor: [int(float64(n) * 1.2)] is [6 * n / 5] *)

Theorem to_int_mul_c1_2 (n : Z) :
  0 <= n < 2 ^ 44 -> to_int (mul (of_int n) c1_2) = 6 * n / 5.
Proof.
  intros Hn. destruct (Z.eq_dec n 0) as [->|Hn0]; [reflexivity|].
  set (d := Z.log2 n + 1).
  assert (2 ^ (d - 1) <= n < 2 ^ d) as Hd.
  { unfold d. replace (Z.log2 n + 1 - 1) with (Z.log2 n) by lia.
    rewrite Z.add_1_r. apply Z.log2_spec. lia. }
  assert (0 < d <= 44) as Hd44.
  { pose proof (Z.log2_nonneg n).
    assert (Z.log2 n < 44) by (apply Z.log2_lt_pow2; lia). lia. }
  rewrite (of_int_pos n d) by lia.
  set (A := 2 ^ (53 - d)).
  assert (0 < A) as HA by (apply Z.pow_pos_nonneg; lia).
  assert (2 ^ 52 <= n * A < 2 ^ 53) as HnA
    by (apply scale_to_53_bits; [lia|exact Hd]).
  unfold mul, c1_2, SFmul. simpl xorb.
  set (m0 := Z.pos (Z.to_pos (n * A) * 5404319552844595)).
  assert (m0 = n * A * 5404319552844595) as Hm0.
  { unfold m0. rewrite Pos2Z.inj_mul, Z2Pos.id by lia. reflexivity. }
  assert (5 * m0 = n * A * (6 * 2 ^ 52 - 1)) as H5 by (rewrite Hm0; lia).
  assert (exists k, 52 <= k <= 53 /\ 2 ^ (52 + k) <= m0 < 2 ^ (53 + k))
    as (k & Hk & Hkm).
  { destruct (Z_lt_le_dec m0 (2 ^ 105)).
    - exists 52. split; [lia|]. simpl (52 + 52). simpl (53 + 52). lia.
    - exists 53. split; [lia|]. simpl (52 + 53). simpl (53 + 53). lia. }
  destruct (to_int_binary_round_aux m0 (d - 53 + -52) k ltac:(lia) Hkm ltac:(lia))
    as (q & Hq & ->).
  replace (- (d - 53 + -52 + k)) with (105 - d - k) by lia.
  set (G := 2 ^ (105 - d - k)). set (K := 2 ^ k) in *.
  assert (0 < G) as HG by (apply Z.pow_pos_nonneg; lia).
  assert (0 < K) as HK by (apply Z.pow_pos_nonneg; lia).
  assert (G * K = 2 ^ 52 * A) as HGK.
  { unfold G, K, A. rewrite <- !Z.pow_add_r by lia. f_equal. lia. }
  assert (K * 2 ^ 52 <= m0 < K * 2 ^ 53) as HKm.
  { unfold K. rewrite <- !Z.pow_add_r by lia.
    rewrite (Z.add_comm k 52), (Z.add_comm k 53). exact Hkm. }
  (* the quotient and remainder of 6 n by 5, scaled by A *)
  pose proof (Z.div_mod (6 * n) 5 ltac:(lia)) as Hdm.
  pose proof (Z.mod_pos_bound (6 * n) 5 ltac:(lia)) as Hr.
  set (j := 6 * n / 5) in *. set (r := (6 * n) mod 5) in *.
  assert (6 * (n * A) = 5 * (j * A) + r * A) as HjA.
  { rewrite Z.mul_assoc, Hdm. ring. }
  assert (0 <= r * A <= 4 * A) as HrA.
  { split; [apply Z.mul_nonneg_nonneg; lia|].
    apply Z.mul_le_mono_nonneg_r; lia. }
  assert (r = 0 \/ A <= r * A) as Hr0.
  { destruct (Z.eq_dec r 0) as [?|Hne]; [by left|right].
    rewrite <- (Z.mul_1_l A) at 1. apply Z.mul_le_mono_nonneg_r; lia. }
  assert (4 * (n * A) <= 2 ^ 52 * A) as H4.
  { rewrite Z.mul_assoc. apply Z.mul_le_mono_nonneg_r; lia. }
  set (X := n * A) in *. set (JA := j * A) in *. set (RA := r * A) in *.
  set (Y := q * K) in *.
  replace (2 * q * K) with (2 * Y) in Hq by (unfold Y; ring).
  assert (Y < (j + 1) * (G * K)) as Hup.
  { rewrite HGK. replace ((j + 1) * (2 ^ 52 * A)) with (2 ^ 52 * JA + 2 ^ 52 * A)
      by (unfold JA; ring).
    lia. }
  assert (j * (G * K) <= Y) as Hlow.
  { destruct Hr0 as [Hr0|Hr0].
    - destruct (Z_lt_le_dec q (j * G)) as [Hlt|Hge].
      + assert (Y <= j * (G * K) - K) as Hstep.
        { unfold Y. replace (j * (G * K) - K) with ((j * G - 1) * K) by ring.
          apply Z.mul_le_mono_nonneg_r; lia. }
        rewrite HGK in Hstep.
        replace (j * (2 ^ 52 * A)) with (2 ^ 52 * JA) in Hstep by (unfold JA; ring).
        assert (RA = 0) as HRA0 by (unfold RA; rewrite Hr0; ring).
        lia.
      + unfold Y. rewrite Z.mul_assoc. apply Z.mul_le_mono_nonneg_r; lia.
    - rewrite HGK. replace (j * (2 ^ 52 * A)) with (2 ^ 52 * JA) by (unfold JA; ring).
      lia. }
  assert (j * G <= q < (j + 1) * G) as [Hq1 Hq2].
  { split.
    - apply (Z.mul_le_mono_pos_r _ _ K HK). unfold Y in Hlow.
      rewrite <- Z.mul_assoc. exact Hlow.
    - apply (Z.mul_lt_mono_pos_r K _ _ HK). unfold Y in Hup.
      rewrite <- Z.mul_assoc. exact Hup. }
  symmetry. apply Z.div_unique_pos with (r := q - j * G); lia.
Qed.

End F64Facts.

(** ** Mount images *)

Module MountImageFacts.
Import Host Mount Examples.

Lemma run_truncate_true t fs path sizeMB fs1 :
  run_truncate t fs path sizeMB = (fs1, true) ->
  fs1 = <[path := NFile (sizeMB * MiB)]> fs.
Proof.
  unfold run_truncate.
  destruct (fs !! path) as [[sz|r es|]|], (truncate_ok t); congruence.
Qed.

Lemma wrap64_small z : - 2 ^ 63 <= z < 2 ^ 63 -> wrap64 z = z.
Proof. intros Hz. unfold wrap64. rewrite Z.mod_small; lia. Qed.

(** [int(imgInfo.Size() / (1024 * 1024))] on a file size. *)
Lemma currentSizeMB_eq sz :
  0 <= sz < 2 ^ 63 -> wrap64 (Z.quot sz (1024 * 1024)) = sz / MiB.
Proof.
  intros Hsz. rewrite Z.quot_div_nonneg by lia. fold MiB.
  apply wrap64_small. unfold MiB.
  pose proof (Z.div_le_upper_bound sz (1024 * 1024) sz ltac:(lia) ltac:(lia)).
  pose proof (Z.div_pos sz (1024 * 1024) ltac:(lia) ltac:(lia)). lia.
Qed.

(** *** The size of a directory *)

Lemma totalBytes_nonneg : forall n, walkable n = true -> 0 <= totalBytes n.
Proof.
  fix IH 1. intros [sz|r es|] Hw; simpl in *.
  - by apply Z.leb_le.
  - apply andb_true_iff in Hw as [_ Hes].
    induction es as [|e es IHes]; [lia|].
    apply andb_true_iff in Hes as [He Hes].
    pose proof (IH e He). pose proof (IHes Hes). lia.
  - lia.
Qed.

Lemma walkSize_total : forall n acc,
  walkable n = true -> 0 <= acc -> acc + totalBytes n < 2 ^ 63 ->
  walkSize n acc = Some (acc + totalBytes n).
Proof.
  fix IH 1. intros [sz|r es|] acc Hw Hacc Hsum; simpl in *.
  - apply Z.leb_le in Hw. rewrite wrap64_small by lia. reflexivity.
  - apply andb_true_iff in Hw as [-> Hes].
    revert acc Hacc Hsum. induction es as [|e es IHes]; intros acc Hacc Hsum.
    + f_equal; lia.
    + apply andb_true_iff in Hes as [He Hes].
      pose proof (totalBytes_nonneg e He) as He_nonneg.
      pose proof (totalBytes_nonneg (NDir true es)) as Hes_nonneg.
      simpl in Hes_nonneg. specialize (Hes_nonneg Hes).
      rewrite (IH e acc He Hacc) by lia.
      rewrite (IHes Hes (acc + totalBytes e)) by lia.
      f_equal; lia.
  - discriminate.
Qed.

Lemma calculateDirSize_total fs path root :
  fs !! path = Some root -> walkable root = true ->
  totalBytes root <= 2 ^ 63 - 2 ^ 20 ->
  calculateDirSize fs path = Some ((totalBytes root + 2 ^ 20 - 1) / 2 ^ 20)
  /\ 0 <= (totalBytes root + 2 ^ 20 - 1) / 2 ^ 20 < 2 ^ 44.
Proof.
  intros Hroot Hw Hsum. unfold calculateDirSize. rewrite Hroot.
  pose proof (totalBytes_nonneg root Hw) as Hnonneg.
  rewrite (walkSize_total root 0 Hw) by lia.
  change (1024 * 1024) with (2 ^ 20). rewrite Z.add_0_l.
  assert (0 <= (totalBytes root + 2 ^ 20 - 1) / 2 ^ 20 < 2 ^ 44) as Hq.
  { split; [apply Z.div_pos; lia|]. apply Z.div_lt_upper_bound; lia. }
  split; [|exact Hq].
  rewrite (wrap64_small (totalBytes root + 2 ^ 20 - 1)) by lia.
  rewrite Z.quot_div_nonneg by lia. rewrite wrap64_small by lia. reflexivity.
Qed.

Lemma withOverhead_eq sizeMB :
  0 <= sizeMB < 2 ^ 44 -> withOverhead sizeMB = Z.max 16 (6 * sizeMB / 5).
Proof.
  intros Hs. unfold withOverhead. rewrite F64Facts.to_int_mul_c1_2 by exact Hs.
  destruct (6 * sizeMB / 5 <? 16) eqn:E.
  - apply Z.ltb_lt in E. lia.
  - apply Z.ltb_ge in E. lia.
Qed.

Section WithJoin.
Variable Join : string -> string -> string.

(** C4, as the code has it: the capacity is the byte total of the entries
    that are not directories, rounded up to whole MB, multiplied by 1.2
    with the fraction discarded, and raised to 16 MB if smaller; when every
    step succeeds, CreateMountImage leaves an image file of that many MB. *)
Theorem C4_image_capacity t fs m mount vmName root :
  let imagePath := GetMountImagePath Join m vmName (GuestTag mount) in
  let sizeMB := (totalBytes root + 2 ^ 20 - 1) / 2 ^ 20 in
  let capacity := Z.max 16 (6 * sizeMB / 5) in
  fs !! HostPath mount = Some root ->
  walkable root = true ->
  totalBytes root <= 2 ^ 63 - 2 ^ 20 ->
  calculateDirSize fs (HostPath mount) = Some sizeMB
  /\ withOverhead sizeMB = capacity
  /\ ((exists r es, root = NDir r es) ->
      (forall r es, fs !! imagePath <> Some (NDir r es)) ->
      mkdirAll_ok t = true -> truncate_ok t = true -> mkfs_ok t = true ->
      copyFilesToImage t = None ->
      CreateMountImage Join t fs m mount vmName
      = (<[imagePath := NFile (capacity * MiB)]> fs,
         with_ImagePath mount imagePath, None)).
Proof.
  intros imagePath sizeMB capacity Hroot Hw Hsum.
  destruct (calculateDirSize_total fs _ root Hroot Hw Hsum) as [Hcalc Hrange].
  fold sizeMB in Hcalc, Hrange.
  pose proof (withOverhead_eq sizeMB Hrange) as Hover. fold capacity in Hover.
  split; [exact Hcalc|]. split; [exact Hover|].
  intros (r & es & ->) Himg Hmkdir Htr Hmkfs Hcopy.
  unfold CreateMountImage, os_Stat. rewrite Hroot. fold imagePath.
  rewrite Hmkdir. simpl. rewrite Hcalc, Hover.
  unfold run_truncate. rewrite Htr.
  destruct (fs !! imagePath) as [[sz|r' es'|]|] eqn:Hlook;
    try (by destruct (Himg r' es'));
    rewrite Hmkfs, Hcopy; reflexivity.
Qed.

(** C7: once [truncate] has created the image file, a failure of mkfs or
    of the copy into the image makes CreateMountImage return that error
    with the image file removed. *)
Theorem C7_failed_create_removes_image t fs m mount vmName isz sizeMB fs1 :
  let imagePath := GetMountImagePath Join m vmName (GuestTag mount) in
  os_Stat fs (HostPath mount) = StatOk true isz ->
  mkdirAll_ok t = true ->
  calculateDirSize fs (HostPath mount) = Some sizeMB ->
  run_truncate t fs imagePath (withOverhead sizeMB) = (fs1, true) ->
  mkfs_ok t = false \/ copyFilesToImage t <> None ->
  fs1 !! imagePath = Some (NFile (withOverhead sizeMB * MiB))
  /\ exists err,
      CreateMountImage Join t fs m mount vmName
      = (delete imagePath fs1, with_ImagePath mount imagePath, Some err)
      /\ (err = MkfsFailed \/ exists why, err = CopyToImageFailed why)
      /\ delete imagePath fs1 !! imagePath = None.
Proof.
  intros imagePath Hstat Hmk Hsize Htr Hfail.
  pose proof (run_truncate_true _ _ _ _ _ Htr) as Hfs1.
  assert (fs1 !! imagePath = Some (NFile (withOverhead sizeMB * MiB))) as Himg.
  { rewrite Hfs1. apply lookup_insert_eq. }
  split; [exact Himg|].
  assert (os_Remove fs1 imagePath = delete imagePath fs1) as Hrm.
  { unfold os_Remove. by rewrite Himg. }
  unfold CreateMountImage. rewrite Hstat. fold imagePath.
  rewrite Hmk. simpl. rewrite Hsize. rewrite Htr.
  destruct (mkfs_ok t) eqn:Hmkfs; simpl.
  - destruct Hfail as [?|Hcopy]; [discriminate|].
    destruct (copyFilesToImage t) as [why|]; [|done].
    rewrite Hrm. eexists. split; [reflexivity|].
    split; [right; by eexists|]. apply lookup_delete_eq.
  - rewrite Hrm. eexists. split; [reflexivity|].
    split; [by left|]. apply lookup_delete_eq.
Qed.

(** C6: SyncMountImage on an existing image file never makes the file
    smaller, whatever the host directory holds and however the external
    steps end: the file keeps its size unless the recomputed size exceeds
    the current one, and then it is set to the recomputed size, which is
    strictly larger. *)
Theorem C6_sync_never_shrinks t fs m mount vmName sz fs' mount' r :
  let imagePath :=
    if bool_decide (ImagePath mount = "")
    then GetMountImagePath Join m vmName (GuestTag mount)
    else ImagePath mount in
  fs !! imagePath = Some (NFile sz) ->
  0 <= sz < 2 ^ 63 ->
  SyncMountImage Join t fs m mount vmName = (fs', mount', r) ->
  exists sz',
    fs' !! imagePath = Some (NFile sz')
    /\ sz <= sz'
    /\ (sz' <> sz ->
        exists sizeMB,
          calculateDirSize fs (HostPath mount) = Some sizeMB
          /\ sz / MiB < withOverhead sizeMB
          /\ sz' = withOverhead sizeMB * MiB
          /\ sz < sz')
    /\ (forall isz sizeMB,
          os_Stat fs (HostPath mount) = StatOk true isz ->
          calculateDirSize fs (HostPath mount) = Some sizeMB ->
          sz / MiB < withOverhead sizeMB ->
          truncate_ok t = true ->
          sz' = withOverhead sizeMB * MiB).
Proof.
  intros imagePath Himg Hsz Hsync.
  assert (os_Stat fs imagePath = StatOk false sz) as Hstat.
  { unfold os_Stat. by rewrite Himg. }
  assert (forall e, (fs', mount', r) = (fs, mount', e) ->
          exists sz', fs' !! imagePath = Some (NFile sz') /\ sz' = sz) as Hsame.
  { intros e [= -> _]. by exists sz. }
  unfold SyncMountImage in Hsync.
  set (mount1 := if bool_decide (ImagePath mount = "") then _ else mount) in Hsync.
  assert (ImagePath mount1 = imagePath /\ HostPath mount1 = HostPath mount)
    as [Hip Hhp].
  { unfold mount1, imagePath. by case_bool_decide. }
  rewrite Hip, Hhp, Hstat in Hsync.
  destruct (os_Stat fs (HostPath mount)) as [[|] isz| |] eqn:Hhost;
    try (injection Hsync as <- _ _; exists sz;
         split; [done|]; split; [lia|]; split; [done|]; intros; congruence).
  destruct (calculateDirSize fs (HostPath mount)) as [sizeMB|] eqn:Hsize;
    try (injection Hsync as <- _ _; exists sz;
         split; [done|]; split; [lia|]; split; [done|]; intros; congruence).
  rewrite currentSizeMB_eq in Hsync by done.
  destruct (sz / MiB <? withOverhead sizeMB) eqn:Hgrow.
  - apply Z.ltb_lt in Hgrow.
    assert (sz < withOverhead sizeMB * MiB) as Hlt.
    { pose proof (Z.mul_succ_div_gt sz MiB ltac:(unfold MiB; lia)) as Hgt.
      apply Z.lt_le_trans with (MiB * Z.succ (sz / MiB)); [exact Hgt|].
      rewrite Z.mul_comm. apply Z.mul_le_mono_nonneg_r; [unfold MiB|]; lia. }
    unfold run_truncate in Hsync. rewrite Himg in Hsync.
    destruct (truncate_ok t) eqn:Htr.
    + exists (withOverhead sizeMB * MiB).
      assert (fs' = <[imagePath := NFile (withOverhead sizeMB * MiB)]> fs) as ->.
      { destruct (resize2fs_ok t); simpl in Hsync; by injection Hsync as <- _ _. }
      split; [apply lookup_insert_eq|]. split; [lia|]. split.
      * intros _. exists sizeMB. done.
      * intros isz' sizeMB' _ [= <-] _ _. done.
    + injection Hsync as <- _ _. exists sz.
      split; [done|]. split; [lia|]. split; [done|].
      intros; congruence.
  - apply Z.ltb_ge in Hgrow. injection Hsync as <- _ _. exists sz.
    split; [done|]. split; [lia|]. split; [done|].
    intros isz' sizeMB' _ [= <-] Hlt _. lia.
Qed.

End WithJoin.

Lemma C4_image_capacity_witness :
  calculateDirSize dataHost "/data" = Some 10
  /\ withOverhead 10 = 16
  /\ CreateMountImage slashJoin allTools dataHost mountManager dataMount "t1"
     = (<[ "/mounts/t1-data.ext4" := NFile 16777216 ]> dataHost,
        with_ImagePath dataMount "/mounts/t1-data.ext4", None).
Proof.
  destruct (C4_image_capacity slashJoin allTools dataHost mountManager dataMount
              "t1" (NDir true [NFile 4194304; NDir true [NFile 6291456]]))
    as (Hcalc & Hover & Hcreate).
  - reflexivity.
  - reflexivity.
  - vm_compute. discriminate.
  - split; [exact Hcalc|]. split; [exact Hover|].
    apply Hcreate; try reflexivity.
    + by eexists _, _.
    + intros r es. vm_compute. discriminate.
Defined.

(** The claim of C4 as written is refuted: it rounds the multiplication by
    1.2 up, which for 14 MB of files gives 17 MB ([(6 * 14 + 4) / 5]);
    the code discards the fraction of 16.8 and creates a 16 MB image. *)
Lemma C4_image_capacity_counterexample :
  ~ (forall fs path sizeMB,
       calculateDirSize fs path = Some sizeMB ->
       withOverhead sizeMB = Z.max 16 ((6 * sizeMB + 4) / 5))
  /\ CreateMountImage slashJoin allTools fourteenMB mountManager dataMount "t1"
     = (<[ "/mounts/t1-data.ext4" := NFile (16 * 1048576) ]> fourteenMB,
        with_ImagePath dataMount "/mounts/t1-data.ext4", None).
Proof.
  split.
  - intros claim. specialize (claim fourteenMB "/data" 14 eq_refl).
    vm_compute in claim. discriminate.
  - vm_compute. reflexivity.
Qed.

Lemma C7_failed_create_removes_image_witness :
  exists err,
    CreateMountImage slashJoin tarExtractFails dataHost mountManager dataMount "t1"
    = (dataHost, with_ImagePath dataMount "/mounts/t1-data.ext4", Some err)
    /\ (err = MkfsFailed \/ exists why, err = CopyToImageFailed why).
Proof.
  destruct (C7_failed_create_removes_image slashJoin tarExtractFails dataHost
              mountManager dataMount "t1" 4096 10
              (<[ "/mounts/t1-data.ext4" := NFile 16777216 ]> dataHost))
    as (_ & err & Hc & Herr & _).
  - reflexivity.
  - reflexivity.
  - vm_compute. reflexivity.
  - vm_compute. reflexivity.
  - right. discriminate.
  - exists err. split; [|exact Herr]. rewrite Hc.
    vm_compute. reflexivity.
Defined.

Lemma C6_sync_never_shrinks_witness :
  exists sz',
    (SyncMountImage slashJoin allTools dataHostWithImage mountManager dataMount
       "t1").1.1 !! "/mounts/t1-data.ext4" = Some (NFile sz')
    /\ 33554432 <= sz'.
Proof.
  destruct (C6_sync_never_shrinks slashJoin allTools dataHostWithImage
              mountManager dataMount "t1" 33554432
              (SyncMountImage slashJoin allTools dataHostWithImage mountManager
                 dataMount "t1").1.1
              (SyncMountImage slashJoin allTools dataHostWithImage mountManager
                 dataMount "t1").1.2
              (SyncMountImage slashJoin allTools dataHostWithImage mountManager
                 dataMount "t1").2)
    as (sz' & Hlook & Hle & _).
  - vm_compute. reflexivity.
  - lia.
  - by destruct (SyncMountImage _ _ _ _ _ _) as [[? ?] ?].
  - exists sz'. split; [exact Hlook | exact Hle].
Defined.

End MountImageFacts.

(** ** More on the Firecracker client *)

Module FirecrackerMore.
Import Host Firecracker FirecrackerState Examples.

Lemma os_Remove_other fs path other :
  other <> path -> os_Remove fs path !! other = fs !! other.
Proof.
  intros Hne. unfold os_Remove.
  destruct (fs !! path) as [[sz|r [|e es]|]|]; try reflexivity;
    by apply lookup_delete_ne.
Qed.

Lemma os_Remove_gone fs path n :
  fs !! path = Some n -> (forall r e es, n <> NDir r (e :: es)) ->
  os_Remove fs path = delete path fs.
Proof.
  intros Hn Hfile. unfold os_Remove. rewrite Hn.
  destruct n as [sz|r [|e es]|]; try reflexivity. by destruct (Hfile r e es).
Qed.

Lemma StartVM_fs fs cfg : (StartVM fs cfg).1 = os_Remove fs (SocketPath cfg).
Proof.
  unfold StartVM.
  destruct (stat_ok _ (KernelPath cfg)), (stat_ok _ (RootfsPath cfg)); reflexivity.
Qed.

(** X1: the drives StartVM hands to the SDK have pairwise different IDs. *)
Theorem X1_drive_ids_distinct fs cfg fs' c :
  StartVM fs cfg = (fs', inr c) ->
  NoDup (DriveID <$> cfg_Drives c).
Proof.
  intros Hstart.
  assert (cfg_Drives c = buildDrives cfg) as ->.
  { unfold StartVM in Hstart.
    destruct (stat_ok _ (KernelPath cfg)), (stat_ok _ (RootfsPath cfg));
      simpl in Hstart; try discriminate. by injection Hstart as _ <-. }
  rewrite FirecrackerFacts.buildDrives_eq. apply NoDup_alt.
  intros i j id Hi Hj. rewrite list_lookup_fmap in Hi, Hj.
  assert (forall k, (DriveID <$> (rootfsDrive cfg :: imap mountDriveEntry (MountDrives cfg)) !! k)
                    = Some id ->
                    (k = 0%nat /\ id = "rootfs")
                    \/ (exists k', k = S k' /\ id = "mount" +:+ pretty k')) as Hshape.
  { intros [|k] Hk; simpl in Hk.
    - left. by injection Hk as <-.
    - right. exists k. split; [done|].
      rewrite list_lookup_imap in Hk.
      destruct (MountDrives cfg !! k); simpl in Hk; [|discriminate].
      by injection Hk as <-. }
  destruct (Hshape i Hi) as [[-> ->]|(i' & -> & ->)];
    destruct (Hshape j Hj) as [[-> Hid]|(j' & -> & Hid)];
    try done; try discriminate.
  f_equal. apply (inj (String.app "mount")) in Hid.
  by apply (inj pretty) in Hid.
Qed.

Lemma X1_drive_ids_distinct_witness :
  NoDup ["rootfs"; "mount0"; "mount1"].
Proof.
  pose proof (X1_drive_ids_distinct imagesPresent twoMounts imagesPresent
                {| cfg_SocketPath := "/run/t1.sock";
                   cfg_KernelImagePath := "/img/vmlinux.bin";
                   cfg_KernelArgs := kernelArgs twoMounts;
                   cfg_Drives := buildDrives twoMounts;
                   cfg_VcpuCount := 1; cfg_MemSizeMib := 512;
                   cfg_NetworkInterfaces := networkInterfaces twoMounts |}) as H.
  apply H. vm_compute. reflexivity.
Defined.

(** X2: when StartVM fails validation (kernel or rootfs not found) it
    has already removed what was at the socket path, so a stale socket file
    is gone, and it has changed no other path; the error is the kernel's
    when the kernel cannot be found after the removal, and the rootfs's
    when the kernel is found and the rootfs is not. *)
Theorem X2_stale_socket_removed fs cfg fs' err :
  StartVM fs cfg = (fs', inl err) ->
  (forall path, path <> SocketPath cfg -> fs' !! path = fs !! path)
  /\ (forall sz, fs !! SocketPath cfg = Some (NFile sz) ->
      fs' !! SocketPath cfg = None)
  /\ ((err = KernelNotFound (KernelPath cfg)
       /\ stat_ok fs' (KernelPath cfg) = false)
      \/ (err = RootfsNotFound (RootfsPath cfg)
          /\ stat_ok fs' (KernelPath cfg) = true
          /\ stat_ok fs' (RootfsPath cfg) = false)).
Proof.
  intros Hstart.
  assert (fs' = os_Remove fs (SocketPath cfg)) as ->.
  { rewrite <- StartVM_fs. by rewrite Hstart. }
  split; [|split].
  - intros path Hne. by apply os_Remove_other.
  - intros sz Hsock. rewrite (os_Remove_gone fs _ (NFile sz)); [|done|discriminate].
    apply lookup_delete_eq.
  - unfold StartVM in Hstart.
    destruct (stat_ok _ (KernelPath cfg)) eqn:Hk; simpl in Hstart.
    + destruct (stat_ok _ (RootfsPath cfg)) eqn:Hr; simpl in Hstart;
        [discriminate|].
      injection Hstart as <-. right. done.
    + injection Hstart as <-. left. done.
Qed.

Lemma X2_stale_socket_removed_witness :
  StartVM socketOnly twoMounts = (∅, inl (KernelNotFound "/img/vmlinux.bin"))
  /\ (∅ : gmap string node) !! "/run/t1.sock" = None.
Proof.
  split; [vm_compute; reflexivity|].
  destruct (X2_stale_socket_removed socketOnly twoMounts ∅
              (KernelNotFound "/img/vmlinux.bin")) as (_ & Hgone & _).
  - vm_compute. reflexivity.
  - apply (Hgone 0). reflexivity.
Defined.

(** X3: when the socket path and the kernel path are the same file,
    StartVM deletes it as a stale socket and then fails because the
    kernel is not found. *)
Theorem X3_socket_path_is_kernel fs cfg sz :
  SocketPath cfg = KernelPath cfg ->
  fs !! KernelPath cfg = Some (NFile sz) ->
  StartVM fs cfg
  = (delete (KernelPath cfg) fs, inl (KernelNotFound (KernelPath cfg))).
Proof.
  intros Hsame Hk. unfold StartVM. rewrite Hsame.
  rewrite (os_Remove_gone fs _ (NFile sz)); [|done|discriminate].
  unfold stat_ok, os_Stat. rewrite lookup_delete_eq. reflexivity.
Qed.

Lemma X3_socket_path_is_kernel_witness :
  (StartVM imagesPresent
     {| SocketPath := "/img/vmlinux.bin"; KernelPath := "/img/vmlinux.bin";
        RootfsPath := "/vms/t1.ext4"; CPUs := 1; MemoryMB := 512;
        TapDevice := ""; MacAddress := ""; KernelArgs := ""; LogPath := "";
        IPAddress := ""; Gateway := ""; MountDrives := [] |}).2
  = inl (KernelNotFound "/img/vmlinux.bin").
Proof.
  rewrite (X3_socket_path_is_kernel imagesPresent _ 4096); reflexivity.
Defined.

(** X4: after UpdateVMState the record is Running exactly when the VM is
    running; a record that is not running is never left Running or
    Starting; only the state changes; and reconciling again against the
    same host changes nothing. *)
Theorem X4_reconcile fs ps v :
  let v' := UpdateVMState fs ps v in
  (State v' = StateRunning <-> IsRunning fs ps (vm_SocketPath v) (PID v) = true)
  /\ (IsRunning fs ps (vm_SocketPath v) (PID v) = false ->
      State v' <> StateStarting
      /\ (State v = StateCreated -> v' = v)
      /\ (State v = StateStopped -> v' = v))
  /\ Name v' = Name v /\ vm_SocketPath v' = vm_SocketPath v /\ PID v' = PID v
  /\ UpdateVMState fs ps v' = v'.
Proof.
  intros v'. unfold v', UpdateVMState.
  destruct v as [name st sock pid]. simpl.
  destruct (IsRunning fs ps sock pid) eqn:Hrun; simpl; rewrite ?Hrun.
  - repeat split; try done; try discriminate.
  - destruct st; simpl; rewrite ?Hrun; repeat split; try done;
      try discriminate; intros; congruence.
Qed.

Lemma X4_reconcile_witness :
  UpdateVMState ∅ (probe None)
    {| Name := "t1"; State := StateStarting;
       vm_SocketPath := "/run/t1.sock"; PID := 4242 |}
  = {| Name := "t1"; State := StateStopped;
       vm_SocketPath := "/run/t1.sock"; PID := 4242 |}.
Proof.
  destruct (X4_reconcile ∅ (probe None)
              {| Name := "t1"; State := StateStarting;
                 vm_SocketPath := "/run/t1.sock"; PID := 4242 |})
    as (_ & _ & _ & _ & _ & Hagain).
  exact Hagain.
Defined.

(** X5: a record with no pid (zero or negative) whose socket file is
    still there is marked Running, whatever its state was. *)
Theorem X5_leftover_socket_marks_running fs ps v :
  PID v <= 0 -> stat_ok fs (vm_SocketPath v) = true ->
  State (UpdateVMState fs ps v) = StateRunning.
Proof.
  intros Hpid Hsock. unfold UpdateVMState, IsRunning. rewrite Hsock. simpl.
  destruct (0 <? PID v) eqn:E; [apply Z.ltb_lt in E; lia|]. reflexivity.
Qed.

Lemma X5_leftover_socket_marks_running_witness :
  State (UpdateVMState socketOnly (probe (Some ESRCH))
           {| Name := "t1"; State := StateStopped;
              vm_SocketPath := "/run/t1.sock"; PID := 0 |}) = StateRunning.
Proof.
  apply X5_leftover_socket_marks_running; [simpl; lia | reflexivity].
Defined.

(** X26: an explicit kernel-arguments override replaces the base
    arguments but not the static-IP parameter: when both the address and
    the gateway are set the parameter is appended to the override, and
    otherwise the override is passed on unchanged. *)
Theorem X26_kernel_args_override fs cfg fs' c :
  KernelArgs cfg <> "" ->
  StartVM fs cfg = (fs', inr c) ->
  (IPAddress cfg <> "" -> Gateway cfg <> "" ->
   cfg_KernelArgs c
   = KernelArgs cfg +:+ " ip=" +:+ IPAddress cfg +:+ "::" +:+ Gateway cfg
     +:+ ":255.255.0.0::eth0:off")
  /\ (IPAddress cfg = "" \/ Gateway cfg = "" ->
      cfg_KernelArgs c = KernelArgs cfg).
Proof.
  intros Hargs Hstart.
  assert (cfg_KernelArgs c = kernelArgs cfg) as ->.
  { unfold StartVM in Hstart.
    destruct (stat_ok _ (KernelPath cfg)), (stat_ok _ (RootfsPath cfg));
      simpl in Hstart; try discriminate. by injection Hstart as _ <-. }
  unfold kernelArgs.
  apply FirecrackerFacts.is_empty_false in Hargs. rewrite Hargs. split.
  - intros Hip Hgw. apply FirecrackerFacts.is_empty_false in Hip, Hgw.
    by rewrite Hip, Hgw.
  - intros [Hip|Hgw].
    + apply FirecrackerFacts.is_empty_true in Hip. by rewrite Hip.
    + apply FirecrackerFacts.is_empty_true in Hgw. rewrite Hgw.
      by rewrite andb_false_r.
Qed.

Lemma X26_kernel_args_override_witness :
  kernelArgs quietBoot
  = "console=ttyS0 quiet ip=172.16.0.2::172.16.0.1:255.255.0.0::eth0:off".
Proof.
  pose proof (X26_kernel_args_override imagesPresent quietBoot imagesPresent
                {| cfg_SocketPath := "/run/t1.sock";
                   cfg_KernelImagePath := "/img/vmlinux.bin";
                   cfg_KernelArgs := kernelArgs quietBoot;
                   cfg_Drives := buildDrives quietBoot;
                   cfg_VcpuCount := 1; cfg_MemSizeMib := 512;
                   cfg_NetworkInterfaces := networkInterfaces quietBoot |}) as H.
  apply H.
  - discriminate.
  - vm_compute. reflexivity.
  - discriminate.
  - discriminate.
Defined.

End FirecrackerMore.

(** ** More on the image manager *)

Module ImageMore.
Import Host HostOps Image ImageStore Examples.

Lemma stat_ok_insert_file fs path sz :
  stat_ok (<[path := NFile sz]> fs) path = true.
Proof. unfold stat_ok, os_Stat. by rewrite lookup_insert_eq. Qed.

Lemma stat_ok_None fs path : fs !! path = None -> stat_ok fs path = false.
Proof. intros H. unfold stat_ok, os_Stat. by rewrite H. Qed.

Lemma tmp_ne (path : string) : path +:+ ".tmp" <> path.
Proof.
  intros H. apply (f_equal String.length) in H.
  rewrite MountSpecFacts.length_app in H. simpl in H. lia.
Qed.

Section WithPaths.
Variable Join : string -> string -> string.
Variable Dir : string -> string.

(** X6: when CreateVMRootfs succeeds it returns the per-VM path, which
    then exists; nothing else has changed; an existing per-VM rootfs is
    left alone and a missing one gets the size of the default rootfs; and
    calling again returns the same path without touching anything. *)
Theorem X6_rootfs_idempotent io fs m vmName vmDir fs1 p :
  CreateVMRootfs Join io fs m vmName vmDir = (fs1, inr p) ->
  p = Join vmDir (vmName +:+ ".ext4")
  /\ stat_ok fs1 p = true
  /\ (forall q, q <> p -> fs1 !! q = fs !! q)
  /\ (stat_ok fs p = true -> fs1 = fs)
  /\ (stat_ok fs p = false ->
      exists sz, fs !! GetDefaultRootfsPath Join m = Some (NFile sz)
                 /\ fs1 !! p = Some (NFile sz))
  /\ forall io', CreateVMRootfs Join io' fs1 m vmName vmDir = (fs1, inr p).
Proof.
  unfold CreateVMRootfs.
  set (dst := Join vmDir (vmName +:+ ".ext4")).
  set (src := GetDefaultRootfsPath Join m).
  destruct (stat_ok fs dst) eqn:Hdst.
  - intros [= <- <-]. rewrite Hdst.
    split; [done|]. split; [done|]. split; [done|]. split; [done|].
    split; [intros; congruence|done].
  - destruct (stat_ok fs src) eqn:Hsrc; simpl; [|discriminate].
    unfold copyFile.
    destruct io, (fs !! src) as [[sz|r es|]|] eqn:Hlook; try discriminate.
    intros [= <- <-]. rewrite stat_ok_insert_file.
    split; [done|]. split; [done|]. split.
    { intros q Hq. by rewrite lookup_insert_ne. }
    split; [intros; congruence|]. split; [|done].
    intros _. exists sz. split; [done|]. apply lookup_insert_eq.
Qed.

(** X7: a copy that stops midway is reported as a failure but leaves the
    truncated per-VM file in place, and the next call returns that file as
    the VM's rootfs without copying again. *)
Theorem X7_partial_copy_is_accepted fs m vmName vmDir sz written :
  let dst := Join vmDir (vmName +:+ ".ext4") in
  stat_ok fs dst = false ->
  fs !! GetDefaultRootfsPath Join m = Some (NFile sz) ->
  CreateVMRootfs Join (CopyStops written) fs m vmName vmDir
  = (<[dst := NFile written]> fs, inl CopyRootfsFailed)
  /\ forall io,
       CreateVMRootfs Join io (<[dst := NFile written]> fs) m vmName vmDir
       = (<[dst := NFile written]> fs, inr dst).
Proof.
  intros dst Hdst Hsrc. unfold CreateVMRootfs. fold dst.
  rewrite Hdst, stat_ok_insert_file. split; [|done].
  unfold stat_ok at 1, os_Stat, copyFile. rewrite Hsrc. reflexivity.
Qed.

(** X8: when DeleteVMRootfs returns nil the per-VM rootfs cannot be
    found any more, nothing else has changed, and deleting again returns
    nil and changes nothing; a rootfs that is not there is not an error. *)
Theorem X8_delete_rootfs fs vmName vmDir :
  let path := Join vmDir (vmName +:+ ".ext4") in
  (stat_ok fs path = false -> DeleteVMRootfs Join fs vmName vmDir = (fs, true))
  /\ forall fs', DeleteVMRootfs Join fs vmName vmDir = (fs', true) ->
     stat_ok fs' path = false
     /\ (forall q, q <> path -> fs' !! q = fs !! q)
     /\ DeleteVMRootfs Join fs' vmName vmDir = (fs', true).
Proof.
  intros path. unfold DeleteVMRootfs. fold path. split.
  - intros ->. reflexivity.
  - intros fs'. destruct (stat_ok fs path) eqn:Hst.
    + unfold os_Remove, os_Remove_ok.
      destruct (fs !! path) as [[sz|r [|e es]|]|] eqn:Hlook;
        intros [= <-]; rewrite stat_ok_None by apply lookup_delete_eq;
        (split; [done|]); (split; [|done]);
        intros q Hq; by apply lookup_delete_ne.
    + intros [= <-]. rewrite Hst. done.
Qed.

(** X9: deleting the per-VM rootfs right after it was copied restores
    the file system as it was before the copy. *)
Theorem X9_create_then_delete_rootfs fs m vmName vmDir sz :
  let dst := Join vmDir (vmName +:+ ".ext4") in
  fs !! dst = None ->
  fs !! GetDefaultRootfsPath Join m = Some (NFile sz) ->
  exists fs1,
    CreateVMRootfs Join CopyCompletes fs m vmName vmDir = (fs1, inr dst)
    /\ DeleteVMRootfs Join fs1 vmName vmDir = (fs, true).
Proof.
  intros dst Hdst Hsrc. exists (<[dst := NFile sz]> fs). split.
  - unfold CreateVMRootfs. fold dst. rewrite (stat_ok_None _ _ Hdst).
    unfold stat_ok, os_Stat, copyFile. rewrite Hsrc. reflexivity.
  - unfold DeleteVMRootfs. fold dst. rewrite stat_ok_insert_file.
    unfold os_Remove, os_Remove_ok. rewrite lookup_insert_eq.
    by rewrite delete_insert_id.
Qed.

(** *** Downloads *)

Lemma os_MkdirAll_keeps ok fs dir fs1 r path n :
  os_MkdirAll ok fs dir = (fs1, r) -> fs !! path = Some n -> fs1 !! path = Some n.
Proof.
  unfold os_MkdirAll. intros H Hp.
  destruct (fs !! dir) as [[sz|rd es|]|] eqn:Hd; try (by injection H as <- _).
  destruct ok; injection H as <- _; [|done].
  rewrite lookup_insert_ne; [done|]. intros <-. congruence.
Qed.

Lemma os_MkdirAll_other ok fs dir fs1 r path :
  os_MkdirAll ok fs dir = (fs1, r) -> path <> dir -> fs1 !! path = fs !! path.
Proof.
  unfold os_MkdirAll. intros H Hp.
  destruct (fs !! dir) as [[sz|rd es|]|] eqn:Hd; try (by injection H as <- _).
  destruct ok; injection H as <- _; [|done]. by rewrite lookup_insert_ne.
Qed.

Lemma os_Create_other ok fs path fs1 r other :
  os_Create ok fs path = (fs1, r) -> other <> path -> fs1 !! other = fs !! other.
Proof.
  unfold os_Create. intros H Hp.
  destruct (fs !! path) as [[sz|rd es|]|] eqn:Hd, ok;
    injection H as <- _; try done; by rewrite lookup_insert_ne.
Qed.

Lemma os_Create_true ok fs path fs1 :
  os_Create ok fs path = (fs1, true) -> fs1 = <[path := NFile 0]> fs.
Proof.
  unfold os_Create. intros H.
  destruct (fs !! path) as [[sz|rd es|]|] eqn:Hd, ok; by injection H as <-.
Qed.

(** X10: downloadFile never leaves a partial file at the destination. On
    success the destination holds the complete body and the temporary file
    is gone; on failure the destination is what it was before; and when the
    body did not arrive completely, no temporary file is left behind. *)
Theorem X10_download_is_atomic o fs destPath fs' r :
  Dir destPath <> destPath ->
  Dir destPath <> destPath +:+ ".tmp" ->
  downloadFile Dir o fs destPath = (fs', r) ->
  (r = true ->
   exists size, dl_http o = BodyComplete size
                /\ fs' !! destPath = Some (NFile size)
                /\ fs' !! (destPath +:+ ".tmp") = None)
  /\ (r = false -> fs' !! destPath = fs !! destPath)
  /\ (fs !! (destPath +:+ ".tmp") = None ->
      (forall size, dl_http o <> BodyComplete size) ->
      fs' !! (destPath +:+ ".tmp") = None).
Proof.
  intros Hdir Hdirtmp. unfold downloadFile.
  pose proof (tmp_ne destPath) as Htmp.
  destruct (os_MkdirAll _ fs (Dir destPath)) as [fs1 [|]] eqn:Hmk.
  2:{ intros [= <- <-]. split; [discriminate|]. split; [|intros Ht _].
      - intros _. eapply os_MkdirAll_other; eauto.
      - erewrite os_MkdirAll_other; eauto. }
  assert (fs1 !! destPath = fs !! destPath) as Hd1
    by (eapply os_MkdirAll_other; eauto).
  assert (fs1 !! (destPath +:+ ".tmp") = fs !! (destPath +:+ ".tmp")) as Ht1
    by (eapply os_MkdirAll_other; eauto).
  destruct (os_Create _ fs1 (destPath +:+ ".tmp")) as [fs2 [|]] eqn:Hcr.
  2:{ intros [= <- <-]. split; [discriminate|].
      assert (fs2 = fs1) as ->.
      { unfold os_Create in Hcr.
        destruct (fs1 !! (destPath +:+ ".tmp")) as [[sz|rd es|]|],
          (dl_create_ok o); by injection Hcr as <-. }
      split; [done|]. intros Ht _. congruence. }
  apply os_Create_true in Hcr. subst fs2.
  assert (forall n, os_Remove (<[destPath +:+ ".tmp" := NFile n]> fs1)
                      (destPath +:+ ".tmp")
                    = delete (destPath +:+ ".tmp") fs1) as Hrm.
  { intros n. unfold os_Remove. rewrite lookup_insert_eq.
    by rewrite delete_insert_eq. }
  destruct (dl_http o) as [| |written|size] eqn:Hhttp.
  1-3: rewrite ?insert_insert_eq, Hrm; intros [= <- <-];
       (split; [done|]); split;
       [intros _; by rewrite lookup_delete_ne|intros _ _; apply lookup_delete_eq].
  rewrite insert_insert_eq. unfold os_Rename.
  rewrite lookup_insert_eq, lookup_insert_ne by done.
  destruct (fs1 !! destPath) as [[sz|rd es|]|] eqn:Hdest, (dl_rename_ok o);
    intros [= <- <-].
  all: split; [|split; [|intros _ Hno; by destruct (Hno size)]].
  all: try done.
  all: try (intros _; rewrite lookup_insert_ne by done; congruence).
  all: intros _; exists size; split; [done|]; split; [apply lookup_insert_eq|].
  all: rewrite lookup_insert_ne by done.
  all: rewrite delete_insert_eq; apply lookup_delete_eq.
Qed.

Lemma downloadFile_true o fs destPath fs' :
  downloadFile Dir o fs destPath = (fs', true) -> fs' !! destPath <> None.
Proof.
  unfold downloadFile.
  destruct (os_MkdirAll _ fs (Dir destPath)) as [fs1 [|]]; [|discriminate].
  destruct (os_Create _ fs1 (destPath +:+ ".tmp")) as [fs2 [|]]; [|discriminate].
  destruct (dl_http o); try discriminate. unfold os_Rename.
  rewrite lookup_insert_eq.
  destruct (_ !! destPath) as [[sz|rd es|]|], (dl_rename_ok o);
    intros [= <-]; by rewrite lookup_insert_eq.
Qed.

Lemma downloadFile_keeps o fs destPath fs' path :
  downloadFile Dir o fs destPath = (fs', true) ->
  path <> destPath +:+ ".tmp" -> fs !! path <> None -> fs' !! path <> None.
Proof.
  intros Hdl Hne Hp.
  destruct (decide (path = destPath)) as [->|Hnd];
    [by eapply downloadFile_true|].
  revert Hdl. unfold downloadFile.
  destruct (os_MkdirAll _ fs (Dir destPath)) as [fs1 [|]] eqn:Hmk; [|discriminate].
  destruct (fs !! path) as [n|] eqn:Hn; [|done].
  pose proof (os_MkdirAll_keeps _ _ _ _ _ _ _ Hmk Hn) as Hn1.
  destruct (os_Create _ fs1 (destPath +:+ ".tmp")) as [fs2 [|]] eqn:Hcr; [|discriminate].
  apply os_Create_true in Hcr. subst fs2.
  destruct (dl_http o); try discriminate. unfold os_Rename.
  rewrite lookup_insert_eq.
  destruct (_ !! destPath) as [[sz|rd es|]|], (dl_rename_ok o);
    intros [= <-].
  all: rewrite lookup_insert_ne, lookup_delete_ne, !lookup_insert_ne by done.
  all: by rewrite Hn1.
Qed.

(** X11: when both default images can be found, EnsureDefaultImages
    downloads nothing and changes nothing; and whenever it returns nil,
    neither image is missing afterwards, provided the kernel is not stored
    under the name of the rootfs download's temporary file. *)
Theorem X11_ensure_default_images ok or fs m :
  let kernelPath := Join (KernelDir m) DefaultKernelName in
  let rootfsPath := Join (RootfsDir m) DefaultRootfsName in
  kernelPath <> rootfsPath +:+ ".tmp" ->
  (fs !! kernelPath <> None -> fs !! rootfsPath <> None ->
   EnsureDefaultImages Join Dir ok or fs m = (fs, None))
  /\ forall fs', EnsureDefaultImages Join Dir ok or fs m = (fs', None) ->
     fs' !! kernelPath <> None /\ fs' !! rootfsPath <> None.
Proof.
  intros kernelPath rootfsPath Hne. unfold EnsureDefaultImages.
  fold kernelPath rootfsPath. split.
  - intros Hk Hr. unfold os_Stat.
    destruct (fs !! kernelPath) as [[?|? ?|]|]; try done;
      destruct (fs !! rootfsPath) as [[?|? ?|]|]; done.
  - intros fs'.
    destruct (match os_Stat fs kernelPath with
              | StatNotExist => downloadFile Dir ok fs kernelPath
              | _ => (fs, true)
              end) as [fs1 [|]] eqn:Hk; [|discriminate].
    assert (fs1 !! kernelPath <> None) as Hk1.
    { unfold os_Stat in Hk.
      destruct (fs !! kernelPath) as [[?|? ?|]|] eqn:Hl;
        try (injection Hk as <-; by rewrite Hl).
      by eapply downloadFile_true. }
    destruct (match os_Stat fs1 rootfsPath with
              | StatNotExist => downloadFile Dir or fs1 rootfsPath
              | _ => (fs1, true)
              end) as [fs2 [|]] eqn:Hr; [|discriminate].
    intros [= <-]. unfold os_Stat in Hr.
    destruct (fs1 !! rootfsPath) as [[?|? ?|]|] eqn:Hl;
      try (injection Hr as <-; split; [done|by rewrite Hl]).
    split; [by eapply downloadFile_keeps|by eapply downloadFile_true].
Qed.

End WithPaths.

(** *** Listing *)

Lemma appendFiles_filter entries : forall files,
  appendFiles entries files
  = files ++ (fst <$> filter (fun e => e.2 = false) entries).
Proof.
  induction entries as [|[name isDir] rest IH]; intros files; simpl.
  - by rewrite app_nil_r.
  - cbn [appendFiles]. destruct isDir; cbn [negb]; rewrite IH.
    + rewrite filter_cons_False; [done|]. simpl. discriminate.
    + rewrite <- app_assoc. rewrite filter_cons_True by done. reflexivity.
Qed.

(** X12: listFiles returns the names of the entries that are not
    directories, each once and in the order of the directory listing; a
    directory that does not exist gives the empty list, not an error, and
    any other failure to read the directory is an error. *)
Theorem X12_list_files readDir dir :
  (readDir dir = ReadDirNotExist -> listFiles readDir dir = Some [])
  /\ (readDir dir = ReadDirErr -> listFiles readDir dir = None)
  /\ (forall entries, readDir dir = ReadDirOk entries ->
      exists files,
        listFiles readDir dir = Some files
        /\ files = fst <$> filter (fun e => e.2 = false) entries
        /\ (forall name, name ∈ files <-> (name, false) ∈ entries)
        /\ (length files <= length entries)%nat).
Proof.
  unfold listFiles. split; [by intros ->|]. split; [by intros ->|].
  intros entries ->. eexists. split; [reflexivity|].
  rewrite appendFiles_filter. simpl. split; [done|]. split.
  - intros name. rewrite list_elem_of_fmap. split.
    + intros ([n d] & -> & Hin). apply list_elem_of_filter in Hin as [Hd Hin].
      simpl in *. by subst.
    + intros Hin. exists (name, false). split; [done|].
      apply list_elem_of_filter. done.
  - rewrite length_fmap. apply length_filter.
Qed.

Lemma X6_rootfs_idempotent_witness :
  CreateVMRootfs slashJoin OpenFails
    (<[ "/vms/t1.ext4" := NFile 314572800 ]> onlyDefaultRootfs)
    imageManager "t1" "/vms"
  = (<[ "/vms/t1.ext4" := NFile 314572800 ]> onlyDefaultRootfs,
     inr "/vms/t1.ext4").
Proof.
  destruct (X6_rootfs_idempotent slashJoin CopyCompletes onlyDefaultRootfs
              imageManager "t1" "/vms"
              (<[ "/vms/t1.ext4" := NFile 314572800 ]> onlyDefaultRootfs)
              "/vms/t1.ext4") as (_ & _ & _ & _ & _ & Hagain).
  - vm_compute. reflexivity.
  - exact (Hagain OpenFails).
Defined.

Lemma X7_partial_copy_is_accepted_witness :
  CreateVMRootfs slashJoin (CopyStops 4096) onlyDefaultRootfs imageManager
    "t1" "/vms"
  = (<[ "/vms/t1.ext4" := NFile 4096 ]> onlyDefaultRootfs, inl CopyRootfsFailed).
Proof.
  apply (proj1 (X7_partial_copy_is_accepted slashJoin onlyDefaultRootfs
                  imageManager "t1" "/vms" 314572800 4096 eq_refl eq_refl)).
Defined.

Lemma X8_delete_rootfs_witness :
  stat_ok (DeleteVMRootfs slashJoin onlyVMRootfs "t1" "/vms").1 "/vms/t1.ext4"
  = false.
Proof.
  destruct (proj2 (X8_delete_rootfs slashJoin onlyVMRootfs "t1" "/vms")
              (DeleteVMRootfs slashJoin onlyVMRootfs "t1" "/vms").1)
    as (Hgone & _).
  - vm_compute. reflexivity.
  - exact Hgone.
Defined.

Lemma X9_create_then_delete_rootfs_witness :
  exists fs1,
    CreateVMRootfs slashJoin CopyCompletes onlyDefaultRootfs imageManager
      "t1" "/vms" = (fs1, inr "/vms/t1.ext4")
    /\ DeleteVMRootfs slashJoin fs1 "t1" "/vms" = (onlyDefaultRootfs, true).
Proof.
  apply (X9_create_then_delete_rootfs slashJoin onlyDefaultRootfs imageManager
           "t1" "/vms" 314572800); reflexivity.
Defined.

Lemma X10_download_is_atomic_witness :
  (downloadFile dirOf (downloadBreaks 4096) ∅ "/img/kernels/vmlinux.bin").1
    !! "/img/kernels/vmlinux.bin" = None
  /\ (downloadFile dirOf (downloadBreaks 4096) ∅ "/img/kernels/vmlinux.bin").1
       !! "/img/kernels/vmlinux.bin.tmp" = None.
Proof.
  destruct (X10_download_is_atomic dirOf (downloadBreaks 4096) ∅
              "/img/kernels/vmlinux.bin"
              (downloadFile dirOf (downloadBreaks 4096) ∅
                 "/img/kernels/vmlinux.bin").1 false)
    as (_ & Hdest & Htmp).
  - vm_compute. discriminate.
  - vm_compute. discriminate.
  - vm_compute. reflexivity.
  - split; [by apply Hdest|]. apply Htmp; [reflexivity|]. intros size. discriminate.
Defined.

Lemma X11_ensure_default_images_witness :
  let after := (EnsureDefaultImages slashJoin dirOf (downloadWorks 20971520)
                  (downloadWorks 314572800) ∅ imageManager).1 in
  after !! "/img/kernels/vmlinux.bin" <> None
  /\ after !! "/img/rootfs/rootfs.ext4" <> None.
Proof.
  intros after.
  apply (proj2 (X11_ensure_default_images slashJoin dirOf
                  (downloadWorks 20971520) (downloadWorks 314572800)
                  ∅ imageManager ltac:(vm_compute; discriminate)) after).
  vm_compute. reflexivity.
Defined.

Lemma X12_list_files_witness :
  ListKernels kernelListing imageManager = Some ["vmlinux-6.1"; "vmlinux.bin"]
  /\ ListRootfs kernelListing imageManager = Some [].
Proof.
  split.
  - destruct (proj2 (proj2 (X12_list_files kernelListing "/img/kernels")) _ eq_refl)
      as (files & Hlist & -> & _).
    exact Hlist.
  - apply (proj1 (X12_list_files kernelListing "/img/rootfs")). reflexivity.
Defined.

End ImageMore.

(** ** More on mount specifications and image paths *)

Module MountSpecMore.
Import Host Mount MountStore Examples.

(** X13: splitMountSpec loses nothing: joining its parts with colons
    gives the specification back; it returns one, two or three parts; the
    tag and the mode contain no colon, and a third part is always "ro" or
    "rw". *)
Theorem X13_split_round_trip (spec : string) :
  String.concat ":" (splitMountSpec spec) = spec
  /\ (1 <= length (splitMountSpec spec) <= 3)%nat
  /\ (forall h rest, splitMountSpec spec = h :: rest ->
      Forall (fun part => colonFree part = true) rest)
  /\ (forall h t mode, splitMountSpec spec = [h; t; mode] -> isMode mode = true).
Proof.
  destruct (MountSpecFacts.split_shapes spec)
    as [[Hs ->]|[(h & t & -> & Ht & _ & ->)|(h & t & mode & -> & Ht & Hm & ->)]].
  - split; [reflexivity|]. split; [simpl; lia|]. split.
    + intros h rest [= <- <-]. constructor.
    + intros h t mode [=].
  - split; [reflexivity|]. split; [simpl; lia|]. split.
    + intros h' rest [= <- <-]. by repeat constructor.
    + intros h' t' mode [=].
  - split; [reflexivity|]. split; [simpl; lia|]. split.
    + intros h' rest [= <- <-]. repeat constructor; [done|].
      by apply MountSpecFacts.isMode_colonFree.
    + intros h' t' mode' [= <- <- <-]. done.
Qed.

Lemma X13_split_round_trip_witness :
  splitMountSpec "C:\\data:code:rw" = ["C:\\data"; "code"; "rw"]
  /\ isMode "rw" = true.
Proof.
  split; [reflexivity|].
  apply (proj2 (proj2 (proj2 (X13_split_round_trip "C:\\data:code:rw")))
           "C:\\data" "code" "rw").
  reflexivity.
Defined.

(** X14: ParseMountSpec reports a malformed specification exactly when
    the string has no colon, and it never reports an invalid mode: a last
    field that is not "ro" or "rw" is read as the tag. *)
Theorem X14_parse_errors fs spec :
  (ParseMountSpec fs spec = inl (InvalidSpec spec) <-> colonFree spec = true)
  /\ (forall mode, ParseMountSpec fs spec <> inl (InvalidMode mode))
  /\ (forall err, ParseMountSpec fs spec = inl err ->
      err = InvalidSpec spec
      \/ (exists h, err = SpecHostPathMissing h /\ stat_ok fs h = false)
      \/ (exists t, err = InvalidTag t /\ tagCharsOk t = false)).
Proof.
  assert (forall mount err, validateMount fs mount = inl err ->
          (err = SpecHostPathMissing (HostPath mount)
           /\ stat_ok fs (HostPath mount) = false)
          \/ (err = InvalidTag (GuestTag mount)
              /\ tagCharsOk (GuestTag mount) = false)) as Hval.
  { intros mount err. unfold validateMount.
    destruct (stat_ok fs (HostPath mount)) eqn:Hs,
             (tagCharsOk (GuestTag mount)) eqn:Ht; simpl;
      intros [= <-]; auto. }
  destruct (MountSpecFacts.split_shapes spec)
    as [[Hs Hsplit]|[(h & t & -> & Ht & Hh & Hsplit)
                    |(h & t & mode & -> & Ht & Hm & Hsplit)]].
  - assert (ParseMountSpec fs spec = inl (InvalidSpec spec)) as ->
      by (unfold ParseMountSpec; by rewrite Hsplit).
    split; [done|]. split; [done|]. intros err [= <-]. by left.
  - assert (colonFree (h +:+ ":" +:+ t) = false) as Hcolon.
    { clear. induction h as [|c h IH]; [reflexivity|].
      rewrite MountSpecFacts.app_cons. simpl. by case_bool_decide. }
    rewrite (MountSpecFacts.parse_two _ _ _ _ Hsplit), Hcolon.
    split; [|split].
    + split; [|done]. intros H. apply Hval in H as [[? _]|[? _]]; done.
    + intros mode H. apply Hval in H as [[? _]|[? _]]; done.
    + intros err H. apply Hval in H as [[-> ?]|[-> ?]]; eauto.
  - assert (colonFree (h +:+ ":" +:+ t +:+ ":" +:+ mode) = false) as Hcolon.
    { clear. induction h as [|c h IH]; [reflexivity|].
      rewrite MountSpecFacts.app_cons. simpl. by case_bool_decide. }
    rewrite (MountSpecFacts.parse_three _ _ _ _ _ Hsplit Hm), Hcolon.
    split; [|split].
    + split; [|done]. intros H. apply Hval in H as [[? _]|[? _]]; done.
    + intros mode' H. apply Hval in H as [[? _]|[? _]]; done.
    + intros err H. apply Hval in H as [[-> ?]|[-> ?]]; eauto.
Qed.

Lemma X14_parse_errors_witness :
  ParseMountSpec dataHost "/data" = inl (InvalidSpec "/data")
  /\ ParseMountSpec dataHost "/data:code:rx" <> inl (InvalidMode "rx").
Proof.
  destruct (X14_parse_errors dataHost "/data") as (Hspec & _).
  destruct (X14_parse_errors dataHost "/data:code:rx") as (_ & Hmode & _).
  split; [apply Hspec; reflexivity|apply Hmode].
Defined.

(** *** Image paths *)

Lemma dashFree_first (a a' x x' : string) :
  dashFree a = true -> dashFree a' = true ->
  a +:+ String "-" x = a' +:+ String "-" x' -> a = a' /\ x = x'.
Proof.
  revert a'. induction a as [|c a IH]; intros [|c' a'] Ha Ha' Heq.
  - change (String "-" x = String "-" x') in Heq. by injection Heq as <-.
  - change (String "-" x = String c' (a' +:+ String "-" x')) in Heq.
    injection Heq as <- _.
    simpl in Ha'. discriminate.
  - change (String c (a +:+ String "-" x) = String "-" x') in Heq.
    injection Heq as -> _.
    simpl in Ha. discriminate.
  - change (String c (a +:+ String "-" x) = String c' (a' +:+ String "-" x'))
      in Heq.
    injection Heq as <- Heq.
    simpl in Ha, Ha'. case_bool_decide; [discriminate|].
    destruct (IH a' Ha Ha' Heq) as [<- <-]. done.
Qed.

Lemma app_same_length (t t' s s' : string) :
  String.length t = String.length t' -> t +:+ s = t' +:+ s' -> t = t' /\ s = s'.
Proof.
  revert t'. induction t as [|c t IH]; intros [|c' t'] Hlen Heq;
    try discriminate.
  - done.
  - change (String c (t +:+ s) = String c' (t' +:+ s')) in Heq.
    injection Heq as <- Heq.
    simpl in Hlen. destruct (IH t' ltac:(lia) Heq) as [<- <-]. done.
Qed.

Lemma app_inv_tail (t t' s : string) : t +:+ s = t' +:+ s -> t = t'.
Proof.
  intros Heq. apply (app_same_length t t' s s); [|done].
  apply (f_equal String.length) in Heq.
  rewrite !MountSpecFacts.length_app in Heq. lia.
Qed.

(** X15: the image path does not tell VM name and tag apart at a dash:
    the VM "a-b" with tag "c" and the VM "a" with tag "b-c" are different
    pairs with the same image path. *)
Theorem X15_image_path_collision Join m (a b c : string) :
  (a +:+ "-" +:+ b, c) <> (a, b +:+ "-" +:+ c)
  /\ GetMountImagePath Join m (a +:+ "-" +:+ b) c
     = GetMountImagePath Join m a (b +:+ "-" +:+ c).
Proof.
  split.
  - intros [= H _]. apply (f_equal String.length) in H.
    rewrite MountSpecFacts.length_app in H. simpl in H. lia.
  - unfold GetMountImagePath. by rewrite !MountSpecFacts.string_app_assoc.
Qed.

Lemma slashFree_app (a b : string) :
  slashFree a = true -> slashFree b = true -> slashFree (a +:+ b) = true.
Proof.
  intros Ha Hb. induction a as [|c a IH]; [exact Hb|].
  change (String c a +:+ b) with (String c (a +:+ b)).
  simpl in *. case_bool_decide; [discriminate|]. by apply IH.
Qed.

(** X16: among VM names and tags that are single path elements (no
    slash), with VM names that contain no dash, different (VM name, tag)
    pairs get different image paths, for every path join that keeps apart
    the file names "x.ext4" of different slash-free x in one directory. *)
Theorem X16_image_path_injective Join m vm1 tag1 vm2 tag2 :
  (forall dir x y, slashFree x = true -> slashFree y = true ->
     Join dir (x +:+ ".ext4") = Join dir (y +:+ ".ext4") -> x = y) ->
  dashFree vm1 = true -> dashFree vm2 = true ->
  slashFree vm1 = true -> slashFree vm2 = true ->
  slashFree tag1 = true -> slashFree tag2 = true ->
  (vm1, tag1) <> (vm2, tag2) ->
  GetMountImagePath Join m vm1 tag1 <> GetMountImagePath Join m vm2 tag2.
Proof.
  intros Hjoin H1 H2 Hv1 Hv2 Ht1 Ht2 Hne Heq. apply Hne.
  unfold GetMountImagePath in Heq.
  rewrite <- (MountSpecFacts.string_app_assoc "-" tag1 ".ext4"),
          <- (MountSpecFacts.string_app_assoc vm1 ("-" +:+ tag1) ".ext4"),
          <- (MountSpecFacts.string_app_assoc "-" tag2 ".ext4"),
          <- (MountSpecFacts.string_app_assoc vm2 ("-" +:+ tag2) ".ext4") in Heq.
  apply Hjoin in Heq.
  - change (vm1 +:+ String "-" tag1 = vm2 +:+ String "-" tag2) in Heq.
    apply dashFree_first in Heq as [<- <-]; done.
  - apply slashFree_app; [done|]. by apply (slashFree_app "-").
  - apply slashFree_app; [done|]. by apply (slashFree_app "-").
Qed.

Lemma slashJoin_inj dir x y : slashJoin dir x = slashJoin dir y -> x = y.
Proof.
  unfold slashJoin. intros H. apply (inj (String.app dir)) in H.
  by apply (inj (String.app "/")) in H.
Qed.

Lemma X16_image_path_injective_witness :
  GetMountImagePath slashJoin mountManager "t1" "data"
  <> GetMountImagePath slashJoin mountManager "t1" "code"
  /\ GetMountImagePath slashJoin mountManager "t1" "data"
     <> GetMountImagePath slashJoin mountManager "t2" "data".
Proof.
  assert (forall dir x y, slashFree x = true -> slashFree y = true ->
            slashJoin dir (x +:+ ".ext4") = slashJoin dir (y +:+ ".ext4") ->
            x = y) as Hjoin.
  { intros dir x y _ _ H. apply slashJoin_inj in H.
    by apply app_inv_tail in H. }
  split.
  - apply (X16_image_path_injective slashJoin mountManager "t1" "data" "t1" "code"
             Hjoin eq_refl eq_refl eq_refl eq_refl eq_refl eq_refl).
    discriminate.
  - apply (X16_image_path_injective slashJoin mountManager "t1" "data" "t2" "data"
             Hjoin eq_refl eq_refl eq_refl eq_refl eq_refl eq_refl).
    discriminate.
Defined.

End MountSpecMore.

(** ** More on mount images *)

Module MountImageMore.
Import Host HostOps Mount MountStore Examples.

Lemma parse_inr fs spec mount :
  ParseMountSpec fs spec = inr mount ->
  stat_ok fs (HostPath mount) = true /\ tagCharsOk (GuestTag mount) = true.
Proof.
  intros Hparse.
  destruct (MountSpecFacts.split_shapes spec)
    as [[Hs Hsplit]|[(h & t & _ & _ & _ & Hsplit)
                    |(h & t & mode & _ & _ & Hm & Hsplit)]].
  - unfold ParseMountSpec in Hparse. rewrite Hsplit in Hparse. discriminate.
  - rewrite (MountSpecFacts.parse_two _ _ _ _ Hsplit) in Hparse.
    apply MountSpecFacts.validateMount_inr in Hparse as (-> & ? & ?). done.
  - rewrite (MountSpecFacts.parse_three _ _ _ _ _ Hsplit Hm) in Hparse.
    apply MountSpecFacts.validateMount_inr in Hparse as (-> & ? & ?). done.
Qed.

Lemma ceil_covers (total : Z) :
  0 <= total -> total <= (total + 2 ^ 20 - 1) / 2 ^ 20 * MiB.
Proof.
  intros Ht. change MiB with (2 ^ 20).
  pose proof (Z.div_mod (total + 2 ^ 20 - 1) (2 ^ 20) ltac:(lia)).
  pose proof (Z.mod_pos_bound (total + 2 ^ 20 - 1) (2 ^ 20) ltac:(lia)). lia.
Qed.

Lemma withOverhead_min sizeMB : 16 <= withOverhead sizeMB.
Proof.
  unfold withOverhead.
  destruct (_ <? 16) eqn:E; [lia|]. by apply Z.ltb_ge in E.
Qed.

Lemma run_truncate_false t fs path sizeMB fs1 :
  run_truncate t fs path sizeMB = (fs1, false) -> fs1 = fs.
Proof.
  unfold run_truncate.
  destruct (fs !! path) as [[sz|r es|]|], (truncate_ok t); congruence.
Qed.

Lemma withOverhead_ge sizeMB :
  0 <= sizeMB < 2 ^ 44 ->
  sizeMB <= withOverhead sizeMB
  /\ 5 * withOverhead sizeMB <= Z.max 80 (6 * sizeMB).
Proof.
  intros Hs. rewrite MountImageFacts.withOverhead_eq by done.
  pose proof (Z.div_mod (6 * sizeMB) 5 ltac:(lia)).
  pose proof (Z.mod_pos_bound (6 * sizeMB) 5 ltac:(lia)). lia.
Qed.

Lemma walkSize_blocked : forall n acc,
  (walkBlocked n = true -> walkSize n acc = None)
  /\ (walkBlocked n = false -> exists size, walkSize n acc = Some size).
Proof.
  fix IH 1. intros [sz|r es|] acc; simpl.
  - split; [discriminate|]. intros _. by eexists.
  - destruct r; simpl; [|split; [done|discriminate]].
    revert acc. induction es as [|e es IHes]; intros acc.
    + split; [discriminate|]. intros _. by eexists.
    + destruct (IH e acc) as [Hb Hok]. destruct (walkBlocked e); simpl.
      * rewrite Hb by done. split; [done|discriminate].
      * destruct (Hok eq_refl) as [size ->]. apply IHes.
  - split; [done|discriminate].
Qed.

Section WithJoin.
Variable Join : string -> string -> string.

(** X17: a mount that ParseMountSpec accepted never makes
    CreateMountImage fail for a missing host path on the same file system;
    but ParseMountSpec does not ask for a directory, and a host path that
    is a file is only rejected by CreateMountImage, which then changes
    nothing. *)
Theorem X17_parsed_mount_then_create t fs m spec mount vmName :
  ParseMountSpec fs spec = inr mount ->
  (forall fs' mount' err path,
     CreateMountImage Join t fs m mount vmName = (fs', mount', Some err) ->
     err <> HostPathMissing path)
  /\ (forall sz, fs !! HostPath mount = Some (NFile sz) ->
      CreateMountImage Join t fs m mount vmName
      = (fs, mount, Some (HostPathNotDir (HostPath mount)))).
Proof.
  intros Hparse. apply parse_inr in Hparse as [Hstat _].
  unfold stat_ok in Hstat. split.
  - intros fs' mount' err path. unfold CreateMountImage.
    destruct (os_Stat fs (HostPath mount)) as [[|] isz| |]; try discriminate.
    + destruct (mkdirAll_ok t); simpl; [|by intros [= _ _ <-]].
      destruct (calculateDirSize _ _); [|by intros [= _ _ <-]].
      destruct (run_truncate _ _ _ _) as [fs1 [|]]; [|by intros [= _ _ <-]].
      destruct (mkfs_ok t); simpl; [|by intros [= _ _ <-]].
      destruct (copyFilesToImage t); [|discriminate]. by intros [= _ _ <-].
    + by intros [= _ _ <-].
  - intros sz Hfile. unfold CreateMountImage, os_Stat. by rewrite Hfile.
Qed.

(** X18: the capacity with overhead is at least 16 MB for every input;
    for a size in MB of up to 2^44 it is never below that size, never
    above 16 or six fifths of it, and it grows with the size. *)
Theorem X18_overhead_bounds :
  (forall sizeMB, 16 <= withOverhead sizeMB)
  /\ (forall sizeMB, 0 <= sizeMB < 2 ^ 44 ->
      sizeMB <= withOverhead sizeMB
      /\ 5 * withOverhead sizeMB <= Z.max 80 (6 * sizeMB))
  /\ (forall a b, 0 <= a <= b -> b < 2 ^ 44 ->
      withOverhead a <= withOverhead b).
Proof.
  split; [exact withOverhead_min|]. split.
  - exact withOverhead_ge.
  - intros a b Hab Hb. rewrite !MountImageFacts.withOverhead_eq by lia.
    pose proof (Z.div_le_mono (6 * a) (6 * b) 5 ltac:(lia) ltac:(lia)). lia.
Qed.

(** X19: when CreateMountImage succeeds on a readable host directory
    whose files total at most 2^63 - 2^20 bytes, the image file it leaves
    is a whole number of MB, at least 16 MB, and at least as large as the
    files of the directory together. *)
Theorem X19_created_image_size t fs m mount vmName root fs' mount' :
  fs !! HostPath mount = Some root ->
  walkable root = true ->
  totalBytes root <= 2 ^ 63 - 2 ^ 20 ->
  CreateMountImage Join t fs m mount vmName = (fs', mount', None) ->
  ImagePath mount' = GetMountImagePath Join m vmName (GuestTag mount)
  /\ exists sizeMB,
       fs' !! ImagePath mount' = Some (NFile (sizeMB * MiB))
       /\ 16 <= sizeMB
       /\ totalBytes root <= sizeMB * MiB.
Proof.
  intros Hroot Hw Hsum.
  destruct (MountImageFacts.calculateDirSize_total fs _ root Hroot Hw Hsum)
    as [Hcalc Hrange].
  pose proof (MountImageFacts.totalBytes_nonneg root Hw) as Hnonneg.
  unfold CreateMountImage.
  destruct (os_Stat fs (HostPath mount)) as [[|] isz| |]; try discriminate.
  destruct (mkdirAll_ok t); simpl; [|discriminate].
  rewrite Hcalc.
  destruct (run_truncate _ _ _ _) as [fs1 [|]] eqn:Htr; [|discriminate].
  apply MountImageFacts.run_truncate_true in Htr. subst fs1.
  destruct (mkfs_ok t); simpl; [|discriminate].
  destruct (copyFilesToImage t); [discriminate|].
  intros [= <- <-]. simpl. split; [done|].
  eexists. split; [apply lookup_insert_eq|].
  split; [apply withOverhead_min|].
  destruct (withOverhead_ge _ Hrange) as [Hge _].
  pose proof (ceil_covers (totalBytes root) Hnonneg) as Hceil.
  etrans; [exact Hceil|].
  apply Z.mul_le_mono_nonneg_r; [unfold MiB; lia|exact Hge].
Qed.

(** X20: calculateDirSize fails exactly when the path is missing or the
    walk meets a broken entry or a directory it cannot list, anywhere
    below the path; CreateMountImage on such a host directory fails before
    it gets to the image file: the error is that of the mounts directory
    or of the size calculation, and the image path is as it was. *)
Theorem X20_walk_errors t fs m mount vmName :
  let imagePath := GetMountImagePath Join m vmName (GuestTag mount) in
  (calculateDirSize fs (HostPath mount) = None <->
   fs !! HostPath mount = None
   \/ exists n, fs !! HostPath mount = Some n /\ walkBlocked n = true)
  /\ (forall r es, fs !! HostPath mount = Some (NDir r es) ->
      walkBlocked (NDir r es) = true ->
      exists fs' err,
        CreateMountImage Join t fs m mount vmName
        = (fs', with_ImagePath mount imagePath, Some err)
        /\ (err = MkdirMountsFailed \/ err = DirSizeFailed)
        /\ fs' !! imagePath = fs !! imagePath).
Proof.
  intros imagePath.
  assert (forall n, fs !! HostPath mount = Some n -> walkBlocked n = true ->
          calculateDirSize fs (HostPath mount) = None) as Hblocked.
  { intros n Hn Hb. unfold calculateDirSize. rewrite Hn.
    by rewrite (proj1 (walkSize_blocked n 0) Hb). }
  split.
  - split.
    + unfold calculateDirSize.
      destruct (fs !! HostPath mount) as [n|] eqn:Hn; [|by left].
      destruct (walkBlocked n) eqn:Hb; [intros _; right; by exists n|].
      destruct (proj2 (walkSize_blocked n 0) Hb) as [size ->]. discriminate.
    + intros [Hn|(n & Hn & Hb)]; [|by eapply Hblocked].
      unfold calculateDirSize. by rewrite Hn.
  - intros r es Hn Hb. unfold CreateMountImage, os_Stat. rewrite Hn.
    fold imagePath. exists fs.
    destruct (mkdirAll_ok t); simpl.
    + rewrite (Hblocked _ Hn Hb). eauto.
    + eauto.
Qed.

(** X21: whatever CreateMountImage returns, every entry that existed
    under another path than the image path is still there unchanged and
    the mount record keeps its host path, tag and mode.  A call that fails
    before [truncate] runs leaves the image path as it was, and a call that
    fails after [truncate] succeeded leaves nothing at the image path. *)
Theorem X21_create_frame t fs m mount vmName fs' mount' r :
  let imagePath := GetMountImagePath Join m vmName (GuestTag mount) in
  CreateMountImage Join t fs m mount vmName = (fs', mount', r) ->
  (forall path n, path <> imagePath -> fs !! path = Some n -> fs' !! path = Some n)
  /\ HostPath mount' = HostPath mount
  /\ GuestTag mount' = GuestTag mount
  /\ ReadOnly mount' = ReadOnly mount
  /\ (forall err, r = Some err ->
      ((err = HostPathMissing (HostPath mount)
        \/ err = HostPathNotDir (HostPath mount)
        \/ err = MkdirMountsFailed
        \/ err = DirSizeFailed)
       /\ fs' !! imagePath = fs !! imagePath)
      \/ err = CreateImageFileFailed
      \/ ((err = MkfsFailed \/ exists why, err = CopyToImageFailed why)
          /\ fs' !! imagePath = None)).
Proof.
  intros imagePath. unfold CreateMountImage. fold imagePath.
  assert (forall mt err,
            HostPath mt = HostPath mount -> GuestTag mt = GuestTag mount ->
            ReadOnly mt = ReadOnly mount ->
            err = HostPathMissing (HostPath mount)
            \/ err = HostPathNotDir (HostPath mount)
            \/ err = MkdirMountsFailed \/ err = DirSizeFailed
            \/ err = CreateImageFileFailed ->
            (fs, mt, Some err) = (fs', mount', r) ->
            (forall path n, path <> imagePath -> fs !! path = Some n ->
                            fs' !! path = Some n)
            /\ HostPath mount' = HostPath mount
            /\ GuestTag mount' = GuestTag mount
            /\ ReadOnly mount' = ReadOnly mount
            /\ (forall err, r = Some err ->
                ((err = HostPathMissing (HostPath mount)
                  \/ err = HostPathNotDir (HostPath mount)
                  \/ err = MkdirMountsFailed
                  \/ err = DirSizeFailed)
                 /\ fs' !! imagePath = fs !! imagePath)
                \/ err = CreateImageFileFailed
                \/ ((err = MkfsFailed \/ exists why, err = CopyToImageFailed why)
                    /\ fs' !! imagePath = None)))
    as Hearly.
  { intros mt err H1 H2 H3 Herr [= <- <- <-].
    split; [done|]. split; [done|]. split; [done|]. split; [done|].
    intros err' [= <-].
    destruct Herr as [->|[->|[->|[->| ->]]]]; auto 10. }
  destruct (os_Stat fs (HostPath mount)) as [[|] isz| |];
    try (apply Hearly; auto 10; fail).
  destruct (mkdirAll_ok t); simpl; [|apply Hearly; auto 10].
  destruct (calculateDirSize _ _) as [sizeMB|]; [|apply Hearly; auto 10].
  destruct (run_truncate _ _ _ _) as [fs1 [|]] eqn:Htr.
  2:{ apply run_truncate_false in Htr. subst fs1. apply Hearly; auto 10. }
  apply MountImageFacts.run_truncate_true in Htr. subst fs1.
  assert (os_Remove (<[imagePath := NFile (withOverhead sizeMB * MiB)]> fs) imagePath
          = delete imagePath fs) as Hrm.
  { unfold os_Remove. rewrite lookup_insert_eq. by rewrite delete_insert_eq. }
  destruct (mkfs_ok t); simpl.
  - destruct (copyFilesToImage t) as [why|].
    + rewrite Hrm. intros [= <- <- <-].
      split; [intros path n Hp Hn; by rewrite lookup_delete_ne|].
      split; [done|]. split; [done|]. split; [done|].
      intros err [= <-]. right; right. split; [right; by eexists|].
      apply lookup_delete_eq.
    + intros [= <- <- <-].
      split; [intros path n Hp Hn; by rewrite lookup_insert_ne|].
      split; [done|]. split; [done|]. split; [done|]. intros err [=].
  - rewrite Hrm. intros [= <- <- <-].
    split; [intros path n Hp Hn; by rewrite lookup_delete_ne|].
    split; [done|]. split; [done|]. split; [done|].
    intros err [= <-]. right; right. split; [by left|]. apply lookup_delete_eq.
Qed.

(** The two things SyncMountImage can do to the file system when the
    image exists: nothing, or set the size of the image file. *)
Lemma Sync_existing t fs m mount vmName fs' mount' r :
  let imagePath :=
    if bool_decide (ImagePath mount = "")
    then GetMountImagePath Join m vmName (GuestTag mount)
    else ImagePath mount in
  fs !! imagePath <> None ->
  SyncMountImage Join t fs m mount vmName = (fs', mount', r) ->
  ImagePath mount' = imagePath
  /\ (fs' = fs
      \/ exists sz sizeMB, fs !! imagePath = Some (NFile sz)
                           /\ fs' = <[imagePath := NFile (sizeMB * MiB)]> fs).
Proof.
  intros imagePath Himg. unfold SyncMountImage.
  set (mount1 := if bool_decide (ImagePath mount = "") then _ else mount).
  assert (ImagePath mount1 = imagePath) as Hip.
  { unfold mount1, imagePath. by case_bool_decide. }
  rewrite Hip.
  destruct (fs !! imagePath) as [img|] eqn:Hlook; [|done].
  assert (forall e, (fs, mount1, e) = (fs', mount', r) ->
          ImagePath mount' = imagePath
          /\ (fs' = fs
              \/ exists sz sizeMB, Some img = Some (NFile sz)
                   /\ fs' = <[imagePath := NFile (sizeMB * MiB)]> fs)) as Hsame.
  { intros e [= <- <- _]. split; [done|by left]. }
  assert (os_Stat fs imagePath
          = match img with
            | NFile sz => StatOk false sz
            | NDir _ _ => StatOk true 4096
            | NBroken => StatErr
            end) as Hst by (unfold os_Stat; by rewrite Hlook).
  rewrite !Hst. unfold run_truncate. rewrite Hlook.
  destruct img as [sz|rd es|].
  all: destruct (os_Stat fs (HostPath mount1)) as [[|] isz| |];
    try apply Hsame.
  all: destruct (calculateDirSize fs (HostPath mount1)) as [sizeMB|];
    try apply Hsame.
  all: destruct (_ <? _); try apply Hsame.
  destruct (truncate_ok t); try apply Hsame.
  destruct (resize2fs_ok t); simpl; intros [= <- <- _];
    (split; [done|]); right; by eexists _, _.
Qed.

(** X22: SyncMountImage never removes an image that exists: whatever
    fails, something is still at the image path afterwards; if it was a
    regular file it still is one; and every entry under another path is
    unchanged. *)
Theorem X22_sync_keeps_image t fs m mount vmName fs' mount' r :
  let imagePath :=
    if bool_decide (ImagePath mount = "")
    then GetMountImagePath Join m vmName (GuestTag mount)
    else ImagePath mount in
  fs !! imagePath <> None ->
  SyncMountImage Join t fs m mount vmName = (fs', mount', r) ->
  fs' !! imagePath <> None
  /\ (forall sz, fs !! imagePath = Some (NFile sz) ->
      exists sz', fs' !! imagePath = Some (NFile sz'))
  /\ (forall path, path <> imagePath -> fs' !! path = fs !! path).
Proof.
  intros imagePath Himg Hsync.
  destruct (Sync_existing _ _ _ _ _ _ _ _ Himg Hsync)
    as [_ [->|(sz & sizeMB & Hfile & ->)]].
  - split; [done|]. split; [eauto|done].
  - split; [by rewrite lookup_insert_eq|]. split.
    + intros _ _. eexists. apply lookup_insert_eq.
    + intros path Hp. by rewrite lookup_insert_ne.
Qed.

(** X23: synchronising right after a successful creation, with the host
    directory as it was, does not resize the image: the file system stays
    as the creation left it and the outcome is that of the copy alone. *)
Theorem X23_sync_after_create t t' fs m mount vmName root fs1 mount1 :
  fs !! HostPath mount = Some root ->
  walkable root = true ->
  totalBytes root <= 2 ^ 62 ->
  CreateMountImage Join t fs m mount vmName = (fs1, mount1, None) ->
  SyncMountImage Join t' fs1 m mount1 vmName = (fs1, mount1, syncContents t').
Proof.
  intros Hroot Hw Hsum.
  destruct (MountImageFacts.calculateDirSize_total fs _ root Hroot Hw
              ltac:(lia)) as [Hcalc Hrange].
  set (sizeMB := (totalBytes root + 2 ^ 20 - 1) / 2 ^ 20) in *.
  set (imagePath := GetMountImagePath Join m vmName (GuestTag mount)).
  assert (sizeMB <= 2 ^ 42) as H42.
  { unfold sizeMB. apply Z.lt_succ_r, Z.div_lt_upper_bound; lia. }
  pose proof (withOverhead_min sizeMB) as Hmin.
  destruct (withOverhead_ge sizeMB Hrange) as [_ Hmax].
  set (W := withOverhead sizeMB) in *.
  unfold CreateMountImage. fold imagePath.
  destruct (os_Stat fs (HostPath mount)) as [[|] isz| |] eqn:Hhost;
    try discriminate.
  destruct (mkdirAll_ok t); simpl; [|discriminate].
  rewrite Hcalc. fold W.
  destruct (run_truncate _ _ _ _) as [fs2 [|]] eqn:Htr; [|discriminate].
  assert (imagePath <> HostPath mount) as Hne.
  { intros Heq. unfold run_truncate in Htr. rewrite Heq, Hroot in Htr.
    unfold os_Stat in Hhost. rewrite Hroot in Hhost.
    destruct root; try discriminate. }
  apply MountImageFacts.run_truncate_true in Htr. subst fs2.
  destruct (mkfs_ok t); simpl; [|discriminate].
  destruct (copyFilesToImage t); [discriminate|].
  intros [= <- <-].
  set (mountA := with_ImagePath mount imagePath).
  assert ((if bool_decide (ImagePath mountA = "")
           then with_ImagePath mountA
                  (GetMountImagePath Join m vmName (GuestTag mountA))
           else mountA) = mountA) as Hm by (by case_bool_decide).
  unfold SyncMountImage. rewrite Hm.
  change (ImagePath mountA) with imagePath.
  change (HostPath mountA) with (HostPath mount).
  unfold os_Stat at 1. rewrite lookup_insert_eq.
  assert (os_Stat (<[imagePath := NFile (W * MiB)]> fs) (HostPath mount)
          = StatOk true isz) as ->.
  { unfold os_Stat in *. by rewrite lookup_insert_ne. }
  assert (calculateDirSize (<[imagePath := NFile (W * MiB)]> fs) (HostPath mount)
          = Some sizeMB) as ->.
  { unfold calculateDirSize in *. by rewrite lookup_insert_ne. }
  fold W. unfold os_Stat. rewrite lookup_insert_eq.
  rewrite MountImageFacts.currentSizeMB_eq by (unfold MiB; lia).
  rewrite Z.div_mul by (unfold MiB; lia).
  rewrite Z.ltb_irrefl. reflexivity.
Qed.

(** X24: when DeleteMountImage returns nil there is nothing at the
    image path, every other path is unchanged, and deleting again returns
    nil; an image that is not there is not an error; and deleting the image
    that CreateMountImage has just created where none was returns nil,
    leaves the image path empty again and every entry that existed before
    the creation unchanged. *)
Theorem X24_delete_mount_image fs m vmName guestTag :
  let imagePath := GetMountImagePath Join m vmName guestTag in
  (fs !! imagePath = None ->
   DeleteMountImage Join fs m vmName guestTag = (fs, true))
  /\ (forall fs', DeleteMountImage Join fs m vmName guestTag = (fs', true) ->
      fs' !! imagePath = None
      /\ (forall path, path <> imagePath -> fs' !! path = fs !! path)
      /\ DeleteMountImage Join fs' m vmName guestTag = (fs', true))
  /\ (forall t mount fs1 mount1,
      GuestTag mount = guestTag -> fs !! imagePath = None ->
      CreateMountImage Join t fs m mount vmName = (fs1, mount1, None) ->
      exists fs2,
        DeleteMountImage Join fs1 m vmName guestTag = (fs2, true)
        /\ fs2 !! imagePath = None
        /\ forall path n, fs !! path = Some n -> fs2 !! path = Some n).
Proof.
  intros imagePath. unfold DeleteMountImage. fold imagePath.
  split; [|split].
  - intros Hnone. unfold os_Stat. by rewrite Hnone.
  - intros fs'. unfold os_Stat, os_Remove, os_Remove_ok.
    destruct (fs !! imagePath) as [[sz|rd [|e es]|]|] eqn:Hlook;
      intros [= <-]; rewrite ?lookup_delete_eq, ?Hlook;
      (split; [done|]); (split; [|done]);
      intros path Hp; try done; by rewrite lookup_delete_ne.
  - intros t mount fs1 mount1 Htag Hnone. unfold CreateMountImage.
    rewrite Htag. fold imagePath.
    destruct (os_Stat fs (HostPath mount)) as [[|] isz| |]; try discriminate.
    destruct (mkdirAll_ok t); simpl; [|discriminate].
    destruct (calculateDirSize _ _) as [sizeMB|]; [|discriminate].
    destruct (run_truncate _ _ _ _) as [fs2 [|]] eqn:Htr; [|discriminate].
    apply MountImageFacts.run_truncate_true in Htr. subst fs2.
    destruct (mkfs_ok t); simpl; [|discriminate].
    destruct (copyFilesToImage t); [discriminate|].
    intros [= <- _]. unfold os_Stat, os_Remove, os_Remove_ok.
    rewrite lookup_insert_eq. rewrite delete_insert_id by done.
    exists fs. split; [done|]. split; [done|]. done.
Qed.

(** X25: when DeleteAllMountImages returns nil, no image of the listed
    mounts is left: the path computed from the VM name and each mount's
    tag is empty, whatever image path the mount records; and every path
    that is not such an image path is unchanged. *)
Theorem X25_delete_all_mount_images m vmName mounts : forall fs fs',
  DeleteAllMountImages Join fs m vmName mounts = (fs', true) ->
  (forall mount, mount ∈ mounts ->
     fs' !! GetMountImagePath Join m vmName (GuestTag mount) = None)
  /\ (forall path,
       (forall mount, mount ∈ mounts ->
          path <> GetMountImagePath Join m vmName (GuestTag mount)) ->
       fs' !! path = fs !! path).
Proof.
  assert (forall fs tag fs1, DeleteMountImage Join fs m vmName tag = (fs1, true) ->
          fs1 !! GetMountImagePath Join m vmName tag = None
          /\ forall path, fs !! path = None \/ path <> GetMountImagePath Join m vmName tag ->
                          fs1 !! path = fs !! path) as Hone.
  { intros fs tag fs1. unfold DeleteMountImage, os_Stat, os_Remove, os_Remove_ok.
    destruct (fs !! GetMountImagePath Join m vmName tag)
      as [[sz|rd [|e es]|]|] eqn:Hlook;
      intros [= <-]; rewrite ?lookup_delete_eq, ?Hlook;
      (split; [done|]); intros path [Hp|Hp]; try done;
      try (by rewrite lookup_delete_ne);
      destruct (decide (GetMountImagePath Join m vmName tag = path)) as [<-|?];
      rewrite ?lookup_delete_eq, ?lookup_delete_ne; done. }
  induction mounts as [|mount0 rest IH]; intros fs fs'; simpl.
  - intros [= <-]. split; [intros mount Hin; by apply not_elem_of_nil in Hin|done].
  - destruct (DeleteMountImage Join fs m vmName (GuestTag mount0))
      as [fs1 [|]] eqn:Hfirst; [|discriminate].
    intros Hrest. destruct (Hone _ _ _ Hfirst) as [Hgone Hkeep].
    destruct (IH _ _ Hrest) as [Hall Hframe]. split.
    + intros mount [->|Hin]%elem_of_cons; [|by apply Hall].
      destruct (decide (Exists (fun mt => GetMountImagePath Join m vmName (GuestTag mount0)
                                = GetMountImagePath Join m vmName (GuestTag mt)) rest))
        as [Hex|Hnex].
      * apply Exists_exists in Hex as (mt & Hin & ->). by apply Hall.
      * rewrite Hframe; [done|]. intros mt Hin Heq. apply Hnex.
        apply Exists_exists. eauto.
    + intros path Hp. rewrite Hframe.
      * apply Hkeep. right. apply Hp. by left.
      * intros mt Hin. apply Hp. by right.
Qed.

End WithJoin.

Lemma X17_parsed_mount_then_create_witness :
  ParseMountSpec dataIsFile "/data:code"
  = inr {| HostPath := "/data"; GuestTag := "code"; ReadOnly := false;
           ImagePath := "" |}
  /\ CreateMountImage slashJoin allTools dataIsFile mountManager
       {| HostPath := "/data"; GuestTag := "code"; ReadOnly := false;
          ImagePath := "" |} "t1"
     = (dataIsFile,
        {| HostPath := "/data"; GuestTag := "code"; ReadOnly := false;
           ImagePath := "" |},
        Some (HostPathNotDir "/data")).
Proof.
  split; [reflexivity|].
  apply (proj2 (X17_parsed_mount_then_create slashJoin allTools dataIsFile
                  mountManager "/data:code" _ "t1" eq_refl) 4096).
  reflexivity.
Defined.

Lemma X18_overhead_bounds_witness :
  16 <= withOverhead 3 /\ 100 <= withOverhead 100 <= withOverhead 200.
Proof.
  destruct X18_overhead_bounds as (Hmin & Hge & Hmono).
  split; [apply Hmin|]. split.
  - apply Hge. lia.
  - apply Hmono; lia.
Defined.

Lemma X19_created_image_size_witness :
  exists sizeMB,
    dataHostCreated !! "/mounts/t1-data.ext4" = Some (NFile (sizeMB * MiB))
    /\ 16 <= sizeMB /\ 10485760 <= sizeMB * MiB.
Proof.
  destruct (X19_created_image_size slashJoin allTools dataHost mountManager
              dataMount "t1" (NDir true [NFile 4194304; NDir true [NFile 6291456]])
              dataHostCreated dataMountCreated) as (_ & sizeMB & H).
  - reflexivity.
  - reflexivity.
  - vm_compute. discriminate.
  - vm_compute. reflexivity.
  - exists sizeMB. exact H.
Defined.

Lemma X20_walk_errors_witness :
  calculateDirSize dataUnreadable "/data" = None
  /\ exists fs' err,
       CreateMountImage slashJoin allTools dataUnreadable mountManager dataMount "t1"
       = (fs', dataMountCreated, Some err)
       /\ (err = MkdirMountsFailed \/ err = DirSizeFailed)
       /\ fs' !! "/mounts/t1-data.ext4" = None.
Proof.
  destruct (X20_walk_errors slashJoin allTools dataUnreadable mountManager
              dataMount "t1") as [Hcalc Hcreate].
  split.
  - apply Hcalc. right. eexists. split; reflexivity.
  - apply (Hcreate true [NFile 4096; NDir false []]); reflexivity.
Defined.

Lemma X21_create_frame_witness :
  (CreateMountImage slashJoin tarExtractFails dataHost mountManager dataMount
     "t1").1.1 !! "/data"
  = Some (NDir true [NFile 4194304; NDir true [NFile 6291456]]).
Proof.
  destruct (X21_create_frame slashJoin tarExtractFails dataHost mountManager
              dataMount "t1"
              (CreateMountImage slashJoin tarExtractFails dataHost mountManager
                 dataMount "t1").1.1
              (CreateMountImage slashJoin tarExtractFails dataHost mountManager
                 dataMount "t1").1.2
              (CreateMountImage slashJoin tarExtractFails dataHost mountManager
                 dataMount "t1").2) as (Hkeep & _).
  - by destruct (CreateMountImage _ _ _ _ _ _) as [[? ?] ?].
  - apply Hkeep; [vm_compute; discriminate|reflexivity].
Defined.

Lemma X22_sync_keeps_image_witness :
  (SyncMountImage slashJoin tarExtractFails dataHostWithImage mountManager
     dataMount "t1").1.1 !! "/mounts/t1-data.ext4" <> None.
Proof.
  destruct (X22_sync_keeps_image slashJoin tarExtractFails dataHostWithImage
              mountManager dataMount "t1"
              (SyncMountImage slashJoin tarExtractFails dataHostWithImage
                 mountManager dataMount "t1").1.1
              (SyncMountImage slashJoin tarExtractFails dataHostWithImage
                 mountManager dataMount "t1").1.2
              (SyncMountImage slashJoin tarExtractFails dataHostWithImage
                 mountManager dataMount "t1").2) as (Hstill & _).
  - vm_compute. discriminate.
  - by destruct (SyncMountImage _ _ _ _ _ _) as [[? ?] ?].
  - exact Hstill.
Defined.

Lemma X23_sync_after_create_witness :
  SyncMountImage slashJoin tarExtractFails dataHostCreated mountManager
    dataMountCreated "t1"
  = (dataHostCreated, dataMountCreated, Some TarExtractFailed).
Proof.
  rewrite (X23_sync_after_create slashJoin allTools tarExtractFails dataHost
             mountManager dataMount "t1"
             (NDir true [NFile 4194304; NDir true [NFile 6291456]])
             dataHostCreated dataMountCreated).
  - reflexivity.
  - reflexivity.
  - reflexivity.
  - vm_compute. discriminate.
  - vm_compute. reflexivity.
Defined.

Lemma X24_delete_mount_image_witness :
  exists fs2,
    DeleteMountImage slashJoin dataHostCreated mountManager "t1" "data"
    = (fs2, true)
    /\ fs2 !! "/mounts/t1-data.ext4" = None
    /\ forall path n, dataHost !! path = Some n -> fs2 !! path = Some n.
Proof.
  apply (proj2 (proj2 (X24_delete_mount_image slashJoin dataHost mountManager
                         "t1" "data")) allTools dataMount dataHostCreated
           dataMountCreated); vm_compute; reflexivity.
Defined.

Lemma X25_delete_all_mount_images_witness :
  (DeleteAllMountImages slashJoin dataHostCreated mountManager "t1" [dataMount]).1
    !! "/mounts/t1-data.ext4" = None.
Proof.
  destruct (X25_delete_all_mount_images slashJoin mountManager "t1" [dataMount]
              dataHostCreated
              (DeleteAllMountImages slashJoin dataHostCreated mountManager "t1"
                 [dataMount]).1) as (Hgone & _).
  - vm_compute. reflexivity.
  - apply (Hgone dataMount). by left.
Defined.

End MountImageMore.
